(** * The survey engine: response store, navigation and condition evaluator

    A shallow embedding of [surveyData.js], [conditionEvaluator.js] and the
    validation part of [surveyNavigation.js].

    - JavaScript values are the JSON-shaped values the survey definition and
      the stored responses are made of.  A number value is an integer (what
      [parseFloat] and ToNumber read from a string is a rational); an object
      is the list of its own properties in enumeration order; two objects (or
      two arrays) that come from different places are never the same
      reference, so [===] between them is [false].  Of the prototype chain
      the part the engine can meet is modelled: what the response map
      inherits, see [responses_at].
    - Strings are byte strings; white space is the ASCII part of the
      ECMAScript [WhiteSpace] and [LineTerminator] classes.
    - A function that may throw returns [Exc]; functions that write the module
      state [surveyState] or [localStorage] are state transformers over
      [World].  Changes of the page (the DOM) are not modelled.
    - The responses item of the storage is modelled by what [JSON.parse] makes
      of its text. *)

From Stdlib Require Import List String Ascii ZArith QArith Bool Lia.
From Stdlib Require Import DecimalString ZifyBool.
Import ListNotations.
Open Scope string_scope.
Open Scope Z_scope.

Set Implicit Arguments.
Set Warnings "-register-all".

(** ** Exceptions *)

Inductive JsError : Type :=
| TypeError
| SyntaxError
| Error (message : string).

Inductive Exc (A : Type) : Type :=
| Ok (a : A)
| Throw (e : JsError).

Arguments Ok {A} a.
Arguments Throw {A} e.

Definition bindE {A B : Type} (m : Exc A) (k : A -> Exc B) : Exc B :=
  match m with
  | Ok a => k a
  | Throw e => Throw e
  end.

Declare Scope exc_scope.
Delimit Scope exc_scope with exc.
Notation "'let?' x ':=' m 'in' k" :=
  (bindE m (fun x => k))
  (at level 10, x name, m at level 100, k at level 200) : exc_scope.
Open Scope exc_scope.

Definition returns {A : Type} (m : Exc A) : Prop := exists a, m = Ok a.

(** ** Values *)

Inductive JsVal : Type :=
| VUndefined
| VNull
| VBool (b : bool)
| VNum (n : Z)
| VStr (s : string)
| VArr (elems : list JsVal)
| VObj (props : list (string * JsVal)).

Definition Props : Type := list (string * JsVal).

(** Own-property lookup in an object. *)
Fixpoint lookup (k : string) (props : Props) : option JsVal :=
  match props with
  | [] => None
  | (k', v) :: rest => if String.eqb k k' then Some v else lookup k rest
  end.

(** Writing the own property [k] of an object: an existing property keeps its
    place, a new one is added last.  This is what [obj[k] = v] does for every
    key but one: [__proto__] on an object that has no own property of that
    name reaches the setter of [Object.prototype], see [responses_put]. *)
Fixpoint assign (k : string) (v : JsVal) (props : Props) : Props :=
  match props with
  | [] => [(k, v)]
  | (k', v') :: rest =>
      if String.eqb k k' then (k, v) :: rest else (k', v') :: assign k v rest
  end.

(** ToBoolean. *)
Definition truthy (v : JsVal) : bool :=
  match v with
  | VUndefined | VNull => false
  | VBool b => b
  | VNum n => negb (n =? 0)
  | VStr s => negb (String.eqb s EmptyString)
  | VArr _ | VObj _ => true
  end.

Definition typeof (v : JsVal) : string :=
  match v with
  | VUndefined => "undefined"
  | VNull => "object"
  | VBool _ => "boolean"
  | VNum _ => "number"
  | VStr _ => "string"
  | VArr _ | VObj _ => "object"
  end.

Definition isArray (v : JsVal) : bool :=
  match v with VArr _ => true | _ => false end.

(** [a === b] between a value of the response store and a value of the survey
    definition. *)
Definition strict_equals (a b : JsVal) : bool :=
  match a, b with
  | VUndefined, VUndefined => true
  | VNull, VNull => true
  | VBool x, VBool y => Bool.eqb x y
  | VNum x, VNum y => x =? y
  | VStr x, VStr y => String.eqb x y
  | _, _ => false
  end.

(** ** Strings *)

Definition is_whitespace (c : ascii) : bool :=
  let n := nat_of_ascii c in
  ((9 <=? n) && (n <=? 13))%nat || (n =? 32)%nat.

Fixpoint trimStart (s : string) : string :=
  match s with
  | EmptyString => EmptyString
  | String c s' => if is_whitespace c then trimStart s' else s
  end.

Fixpoint trimEnd (s : string) : string :=
  match s with
  | EmptyString => EmptyString
  | String c s' =>
      match trimEnd s' with
      | EmptyString => if is_whitespace c then EmptyString else String c EmptyString
      | t => String c t
      end
  end.

(** [String.prototype.trim]. *)
Definition trim (s : string) : string := trimEnd (trimStart s).

Definition digit_of (c : ascii) : option Z :=
  let n := nat_of_ascii c in
  if ((48 <=? n) && (n <=? 57))%nat then Some (Z.of_nat (n - 48)) else None.

(** The longest prefix of decimal digits: its value read after [acc], how
    many digits it has, and what follows it. *)
Fixpoint read_digits (s : string) (acc : Z) (count : nat) : Z * nat * string :=
  match s with
  | EmptyString => (acc, count, s)
  | String c s' =>
      match digit_of c with
      | Some d => read_digits s' (10 * acc + d) (S count)
      | None => (acc, count, s)
      end
  end.

(** An optional sign: [true] for a minus. *)
Definition read_sign (s : string) : bool * string :=
  match s with
  | String "-" s' => (true, s')
  | String "+" s' => (false, s')
  | _ => (false, s)
  end.

(** [parseInt(s, 10)]; [None] is [NaN]. *)
Definition parseInt (s : string) : option Z :=
  let (neg, body) := read_sign (trimStart s) in
  match read_digits body 0 0 with
  | (_, O, _) => None
  | (n, _, _) => Some (if neg then - n else n)
  end.

(** [Number.prototype.toString] on an integer. *)
Definition string_of_Z (n : Z) : string :=
  NilZero.string_of_int (Z.to_int n).

(** A decimal literal at the start of [s] ([digits], [digits.digits],
    [.digits], each with an optional exponent) and what follows it. *)
Definition read_decimal (s : string) : option (Q * string) :=
  let '(ip, ni, r1) := read_digits s 0 0 in
  let '(fp, nf, r2) :=
    match r1 with
    | String "." r => read_digits r 0 0
    | _ => (0, O, r1)
    end in
  match ni, nf, r1 with
  | O, O, _ => None
  | _, _, _ =>
      let mantissa := ((ip * 10 ^ Z.of_nat nf + fp) # Pos.of_nat (10 ^ nf))%Q in
      let with_exp :=
        match r2 with
        | String e r3 =>
            if (Ascii.eqb e "e" || Ascii.eqb e "E")%bool then
              let (eneg, r4) := read_sign r3 in
              match read_digits r4 0 0 with
              | (_, O, _) => None
              | (x, _, r5) =>
                  Some (if eneg
                        then (mantissa / inject_Z (10 ^ x))%Q
                        else (mantissa * inject_Z (10 ^ x))%Q, r5)
              end
            else None
        | EmptyString => None
        end in
      match with_exp with
      | Some res => Some res
      | None => Some (mantissa, r2)
      end
  end.

Definition signed (neg : bool) (q : Q) : Q := if neg then (- q)%Q else q.

(** [parseFloat] on a string: the longest decimal literal after leading
    white space; [None] is [NaN].  (The literal [Infinity] is not a number of
    this model.) *)
Definition parseFloat_string (s : string) : option Q :=
  let (neg, body) := read_sign (trimStart s) in
  match read_decimal body with
  | Some (q, _) => Some (signed neg q)
  | None => None
  end.

(** ToNumber on a string: the whole trimmed string is a decimal literal, or
    is empty (which is 0). *)
Definition number_of_string (s : string) : option Q :=
  let t := trim s in
  if String.eqb t EmptyString then Some 0%Q
  else
    let (neg, body) := read_sign t in
    match read_decimal body with
    | Some (q, EmptyString) => Some (signed neg q)
    | _ => None
    end.

(** ToString. *)
Fixpoint to_string (v : JsVal) : string :=
  match v with
  | VUndefined => "undefined"
  | VNull => "null"
  | VBool true => "true"
  | VBool false => "false"
  | VNum n => string_of_Z n
  | VStr s => s
  | VArr elems =>
      (fix join (l : list JsVal) : string :=
         match l with
         | [] => EmptyString
         | x :: l' =>
             let sx := match x with
                       | VUndefined | VNull => EmptyString
                       | _ => to_string x
                       end in
             match l' with
             | [] => sx
             | _ :: _ => sx ++ "," ++ join l'
             end
         end) elems
  | VObj _ => "[object Object]"
  end.

(** ToNumber; [None] is [NaN]. *)
Definition to_number (v : JsVal) : option Q :=
  match v with
  | VUndefined => None
  | VNull => Some 0%Q
  | VBool b => Some (if b then 1%Q else 0%Q)
  | VNum n => Some (inject_Z n)
  | VStr s => number_of_string s
  | VArr _ => number_of_string (to_string v)
  | VObj _ => None
  end.

(** [parseFloat(v)]: the argument is first converted to a string. *)
Definition parseFloat (v : JsVal) : option Q :=
  match v with
  | VNum n => Some (inject_Z n)
  | _ => parseFloat_string (to_string v)
  end.

(** The index an array-index property key stands for. *)
Definition index_of_key (k : string) : option nat :=
  match read_digits k 0 0 with
  | (n, S _, EmptyString) =>
      if String.eqb (string_of_Z n) k then Some (Z.to_nat n) else None
  | _ => None
  end.

(** Property read [v[k]] / [v.k]; reading a property of [undefined] or
    [null] is a TypeError.  Only own properties are found.  That is all the
    engine can tell: the names it reads by themselves ([value], [comment],
    [isOther], the claims of the token) no prototype has, and what it reads
    under a name taken from the data, the option id of [optionChecked], it
    only compares with [true], which no inherited property is.  Reading the
    response map itself is [responses_at]. *)
Definition get_prop (v : JsVal) (k : string) : Exc JsVal :=
  match v with
  | VUndefined | VNull => Throw TypeError
  | VBool _ | VNum _ => Ok VUndefined
  | VStr s =>
      if String.eqb k "length" then Ok (VNum (Z.of_nat (String.length s)))
      else match index_of_key k with
           | Some i => match String.get i s with
                       | Some c => Ok (VStr (String c EmptyString))
                       | None => Ok VUndefined
                       end
           | None => Ok VUndefined
           end
  | VArr elems =>
      if String.eqb k "length" then Ok (VNum (Z.of_nat (List.length elems)))
      else match index_of_key k with
           | Some i => Ok (nth i elems VUndefined)
           | None => Ok VUndefined
           end
  | VObj props =>
      match lookup k props with
      | Some x => Ok x
      | None => Ok VUndefined
      end
  end.

(** [Object.entries(v)] of a value that is not [undefined] or [null]. *)
Definition entries (v : JsVal) : Props :=
  match v with
  | VObj props => props
  | VArr elems =>
      combine (map (fun i => string_of_Z (Z.of_nat i)) (seq 0 (List.length elems))) elems
  | VStr s =>
      combine (map (fun i => string_of_Z (Z.of_nat i)) (seq 0 (String.length s)))
              (map (fun c => VStr (String c EmptyString)) (list_ascii_of_string s))
  | _ => []
  end.

(** [a == b] where [a] is a string. *)
Definition loose_equals_string (a : string) (b : JsVal) : bool :=
  match b with
  | VUndefined | VNull => false
  | VStr s => String.eqb a s
  | VBool _ | VNum _ =>
      match number_of_string a, to_number b with
      | Some x, Some y => Qeq_bool x y
      | _, _ => false
      end
  | VArr _ | VObj _ => String.eqb a (to_string b)
  end.

(** ** The survey definition *)

(** A rule of a condition group.  [questionId] and [type] are strings, the
    empty string standing for a missing one (both are falsy); the other
    fields are [VUndefined] when missing. *)
Record ConditionRule : Type := {
  questionId : string;
  type : string;
  value : JsVal;
  threshold : JsVal;
  optionId : JsVal
}.

(** [rules] is [None] when the group has no rules array; an element of the
    array is [None] when it is [null]. *)
Record ConditionGroup : Type := {
  operator : JsVal;
  rules : option (list (option ConditionRule))
}.

(** The fields of a question the engine reads: [required] is whether
    [q.required] is truthy, [conditions] is [None] when the question has
    none. *)
Record Question : Type := {
  q_id : string;
  required : bool;
  conditions : option ConditionGroup
}.

(** [questions] is [None] when the step has no questions array. *)
Record Step : Type := {
  step_id : string;
  questions : option (list Question)
}.

(** [def_id] is the empty string when the definition has no id; [steps] is
    [None] when it has no steps array. *)
Record SurveyDefinition : Type := {
  def_id : string;
  title : JsVal;
  steps : option (list Step)
}.

(** ** The engine state and the resume storage *)

(** [responses] holds the own properties of the object
    [surveyState.responses].  [responses_proto] is its prototype: [None]
    while that is [Object.prototype], as for every object an object literal
    or [JSON.parse] makes, and the properties of the object that took its
    place once [surveyState.responses['__proto__'] = ...] has run. *)
Record SurveyState : Type := {
  definition : option SurveyDefinition;
  currentStepIndex : Z;
  responses : Props;
  isLoaded : bool;
  responses_proto : option Props
}.

(** The module's initial [surveyState]. *)
Definition initial_state : SurveyState :=
  {| definition := None; currentStepIndex := 0; responses := []; isLoaded := false;
     responses_proto := None |}.

(** The text of the responses slot, by what [JSON.parse] makes of it: a
    SyntaxError, or an object.  The engine itself only ever writes the text
    of an object there ([saveProgress] stringifies [surveyState.responses],
    which starts as an object and is only replaced by an object).  A text
    that parses to [null], a boolean, a number, a string or an array can only
    come from outside the engine; [restoreProgress] would adopt that value as
    the response map, which [SurveyState] cannot hold, so such a slot is
    outside this type and outside every statement made over [LocalStorage]. *)
Inductive StoredText : Type :=
| Unparseable (text : string)
| JsonOf (object : Props).

(** The two slots [STORAGE_KEYS] names; [None] is an absent item. *)
Record LocalStorage : Type := {
  survey_current_step : option string;
  survey_responses : option StoredText
}.

Record World : Type := {
  surveyState : SurveyState;
  localStorage : LocalStorage
}.

(** What [JSON.parse (JSON.stringify v)] is: a property whose value is
    [undefined] is dropped, an array element that is [undefined] becomes
    [null]. *)
Fixpoint json_image (v : JsVal) : JsVal :=
  match v with
  | VArr elems =>
      VArr (map (fun x => match x with
                          | VUndefined => VNull
                          | _ => json_image x
                          end) elems)
  | VObj props =>
      VObj ((fix image_props (l : Props) : Props :=
               match l with
               | [] => []
               | (k, VUndefined) :: rest => image_props rest
               | (k, x) :: rest => (k, json_image x) :: image_props rest
               end) props)
  | _ => v
  end.

Definition json_image_props (props : Props) : Props :=
  match json_image (VObj props) with
  | VObj l => l
  | _ => []
  end.

(** ** surveyData.js *)

Definition set_currentStepIndex (i : Z) (st : SurveyState) : SurveyState :=
  {| definition := definition st; currentStepIndex := i;
     responses := responses st; isLoaded := isLoaded st;
     responses_proto := responses_proto st |}.

(** [surveyState.responses = r] for a new object [r], an object literal or
    what [JSON.parse] returned: its prototype is [Object.prototype]. *)
Definition set_responses (r : Props) (st : SurveyState) : SurveyState :=
  {| definition := definition st; currentStepIndex := currentStepIndex st;
     responses := r; isLoaded := isLoaded st;
     responses_proto := None |}.

(** The names every object inherits from [Object.prototype], [__proto__]
    apart; each of them is a method. *)
Definition object_prototype_members : list string :=
  ["constructor"; "__defineGetter__"; "__defineSetter__"; "hasOwnProperty";
   "__lookupGetter__"; "__lookupSetter__"; "isPrototypeOf";
   "propertyIsEnumerable"; "toString"; "valueOf"; "toLocaleString"].

(** What the key [k] finds on [Object.prototype].  A method read in the place
    of a response is a function: it is truthy and has no property [value],
    [comment] or [isOther], and the engine reads nothing else of a response,
    so it is written as an object without properties. *)
Definition from_Object_prototype (k : string) : JsVal :=
  if existsb (String.eqb k) object_prototype_members then VObj [] else VUndefined.

(** [surveyState.responses[k]]: the own property; failing that the property
    of the prototype, when an object took the place of [Object.prototype];
    failing that what [Object.prototype] has, where [__proto__] is the getter
    that returns the prototype of the response map ([Object.prototype]
    itself, again an object without [value] or [comment], or the object that
    replaced it). *)
Definition responses_at (st : SurveyState) (k : string) : JsVal :=
  match lookup k (responses st) with
  | Some v => v
  | None =>
      match responses_proto st with
      | None =>
          if String.eqb k "__proto__" then VObj [] else from_Object_prototype k
      | Some fields =>
          match lookup k fields with
          | Some v => v
          | None =>
              if String.eqb k "__proto__" then VObj fields
              else from_Object_prototype k
          end
      end
  end.

(** [surveyState.responses[k] = r] for a new object [r] with the properties
    [fields]: the own property [k] is written, except that [__proto__], on a
    map without an own property of that name, reaches the setter of
    [Object.prototype], which makes [r] the prototype of the map and adds no
    own property. *)
Definition responses_put (k : string) (fields : Props) (st : SurveyState) : SurveyState :=
  if String.eqb k "__proto__"
     && match lookup k (responses st) with None => true | Some _ => false end
  then
    {| definition := definition st; currentStepIndex := currentStepIndex st;
       responses := responses st; isLoaded := isLoaded st;
       responses_proto := Some fields |}
  else
    {| definition := definition st; currentStepIndex := currentStepIndex st;
       responses := assign k (VObj fields) (responses st); isLoaded := isLoaded st;
       responses_proto := responses_proto st |}.

(** [surveyState.definition.steps]: a TypeError when the definition is
    [null]. *)
Definition definition_steps (st : SurveyState) : Exc (option (list Step)) :=
  match definition st with
  | None => Throw TypeError
  | Some d => Ok (steps d)
  end.

Definition getStepByIndex (st : SurveyState) (index : Z) : Exc (option Step) :=
  if negb (isLoaded st) then Ok None
  else
    let? s := definition_steps st in
    match s with
    | None => Ok None
    | Some l =>
        if (index <? 0) || (index >=? Z.of_nat (List.length l)) then Ok None
        else Ok (nth_error l (Z.to_nat index))
    end.

Definition getStepById (st : SurveyState) (stepId : string) : Exc (option Step) :=
  if negb (isLoaded st) then Ok None
  else
    let? s := definition_steps st in
    match s with
    | None => Ok None
    | Some l => Ok (find (fun step => String.eqb (step_id step) stepId) l)
    end.

Definition getCurrentStep (st : SurveyState) : Exc (option Step) :=
  getStepByIndex st (currentStepIndex st).

Definition getCurrentStepIndex (st : SurveyState) : Z := currentStepIndex st.

(** [surveyState.responses[questionId] || null]. *)
Definition getResponse (st : SurveyState) (questionId : string) : JsVal :=
  let r := responses_at st questionId in
  if truthy r then r else VNull.

Definition getAllResponses (st : SurveyState) : Props := responses st.

(** [saveProgress]: both slots are written; the [try] around them only guards
    [setItem], which is taken to succeed. *)
Definition saveProgress (w : World) : World :=
  let st := surveyState w in
  {| surveyState := st;
     localStorage :=
       {| survey_current_step := Some (string_of_Z (currentStepIndex st));
          survey_responses := Some (JsonOf (json_image_props (responses st))) |} |}.

Definition goToStep (index : Z) (w : World) : Exc bool * World :=
  let st := surveyState w in
  if negb (isLoaded st) then (Ok false, w)
  else if index <? 0 then (Ok false, w)
  else
    match definition_steps st with
    | Throw e => (Throw e, w)
    | Ok None => (Throw TypeError, w)
    | Ok (Some l) =>
        if index >=? Z.of_nat (List.length l) then (Ok false, w)
        else
          (Ok true,
           saveProgress {| surveyState := set_currentStepIndex index st;
                           localStorage := localStorage w |})
    end.

Definition nextStep (w : World) : Exc bool * World :=
  goToStep (currentStepIndex (surveyState w) + 1) w.

Definition prevStep (w : World) : Exc bool * World :=
  goToStep (currentStepIndex (surveyState w) - 1) w.

Definition hasVisitedStep (st : SurveyState) (index : Z) : bool :=
  index <=? currentStepIndex st.

(** The test both [areAllRequiredQuestionsAnswered] and [validateCurrentStep]
    apply to the response of a required question: [true] when the question
    counts as not answered. *)
Definition required_unanswered (response : JsVal) : Exc bool :=
  if negb (truthy response) then Ok true
  else
    let? v := get_prop response "value" in
    Ok (strict_equals v VUndefined
        || strict_equals v VNull
        || match v with VArr elems => (Z.of_nat (List.length elems) =? 0) | _ => false end
        || match v with VStr s => String.eqb (trim s) EmptyString | _ => false end).

(** The [for] loop over the required questions: [false] at the first one
    that is not answered. *)
Fixpoint all_answered (st : SurveyState) (requiredQuestions : list Question) : Exc bool :=
  match requiredQuestions with
  | [] => Ok true
  | question :: rest =>
      let? missing := required_unanswered (getResponse st (q_id question)) in
      if missing then Ok false else all_answered st rest
  end.

Definition areAllRequiredQuestionsAnswered (st : SurveyState) (stepId : string) : Exc bool :=
  let? step := getStepById st stepId in
  match step with
  | None => Ok true
  | Some s =>
      match questions s with
      | None => Ok true
      | Some qs => all_answered st (filter required qs)
      end
  end.

(** [saveResponse(questionId, value, comment = null)] at time [now]; a
    comment that is [null] or [undefined] is [None]. *)
Definition saveResponse (questionId : string) (v : JsVal) (comment : option string)
    (now : string) (w : World) : Exc bool * World :=
  let st := surveyState w in
  if negb (isLoaded st) then (Ok false, w)
  else
    let response := [("value", v); ("timestamp", VStr now)] in
    let response' :=
      match comment with
      | Some c =>
          if negb (String.eqb (trim c) EmptyString) then assign "comment" (VStr c) response
          else response
      | None => response
      end in
    (Ok true,
     saveProgress {| surveyState := responses_put questionId response' st;
                     localStorage := localStorage w |}).

(** [restoreProgress]: one [try] around both slots, whose [catch] only logs;
    what was assigned before a throw stays assigned. *)
Definition restoreProgress (w : World) : World :=
  let st := surveyState w in
  let ls := localStorage w in
  let after_step : Exc SurveyState :=
    match survey_current_step ls with
    | None => Ok st
    | Some savedStep =>
        match parseInt savedStep with
        | None => Ok st
        | Some stepIndex =>
            if negb (stepIndex >=? 0) then Ok st
            else
              match definition st with
              | None => Ok st
              | Some d =>
                  match steps d with
                  | None => Throw TypeError
                  | Some l =>
                      if stepIndex <? Z.of_nat (List.length l)
                      then Ok (set_currentStepIndex stepIndex st)
                      else Ok st
                  end
              end
        end
    end in
  match after_step with
  | Throw _ => w
  | Ok st1 =>
      match survey_responses ls with
      | None => {| surveyState := st1; localStorage := ls |}
      | Some (Unparseable _) => {| surveyState := st1; localStorage := ls |}
      | Some (JsonOf m) => {| surveyState := set_responses m st1; localStorage := ls |}
      end
  end.

(** [loadSurveyDefinition]: [fetched] is what [fetch] and [response.json()]
    give, a definition or a failure; a failure is rethrown before the state is
    touched. *)
Definition loadSurveyDefinition (fetched : Exc SurveyDefinition) (w : World)
    : Exc SurveyDefinition * World :=
  match fetched with
  | Throw e => (Throw e, w)
  | Ok surveyData =>
      let st := surveyState w in
      (Ok surveyData,
       restoreProgress
         {| surveyState := {| definition := Some surveyData;
                              currentStepIndex := currentStepIndex st;
                              responses := responses st;
                              isLoaded := true;
                              responses_proto := responses_proto st |};
            localStorage := localStorage w |})
  end.

Definition clearResponses (w : World) : World :=
  saveProgress
    {| surveyState := set_currentStepIndex 0 (set_responses [] (surveyState w));
       localStorage := localStorage w |}.

(** What [submitSurvey] hands to [dataService.saveUserData]. *)
Record SubmissionData : Type := {
  surveyId : string;
  surveyTitle : JsVal;
  completedAt : string;
  sub_responses : Props;
  username : JsVal
}.

(** [a || b]. *)
Definition or_else (a b : JsVal) : JsVal := if truthy a then a else b.

(** [submitSurvey]: [idTokenClaims] is what [auth.getIdTokenClaims()]
    returns (claims or [null]), [saveUserData] is the persistence
    collaborator.  The result comes with the list of payloads handed to the
    collaborator and the world the call leaves. *)
Definition submitSurvey (idTokenClaims : JsVal) (now : string)
    (saveUserData : SubmissionData -> Exc JsVal) (w : World)
    : Exc JsVal * list SubmissionData * World :=
  let st := surveyState w in
  if negb (isLoaded st) || (Z.of_nat (List.length (map fst (responses st))) =? 0)
  then (Throw (Error "No survey responses to submit"), [], w)
  else
    let prepared : Exc SubmissionData :=
      let? user :=
        if truthy idTokenClaims then
          let? a := get_prop idTokenClaims "preferred_username" in
          let? b := get_prop idTokenClaims "email" in
          let? c := get_prop idTokenClaims "name" in
          Ok (or_else a (or_else b (or_else c (VStr "unknown"))))
        else Ok (VStr "unknown") in
      match definition st with
      | None => Throw TypeError
      | Some d =>
          Ok {| surveyId := if String.eqb (def_id d) EmptyString then "unknown" else def_id d;
                surveyTitle := title d;
                completedAt := now;
                sub_responses := responses st;
                username := user |}
      end in
    match prepared with
    | Throw e => (Throw e, [], w)
    | Ok submissionData => (saveUserData submissionData, [submissionData], w)
    end.

(** ** conditionEvaluator.js *)

Module CONDITION_TYPES.
Definition ANSWERED := "answered".
Definition EQUALS := "equals".
Definition NOT_EQUALS := "notEquals".
Definition CONTAINS := "contains".
Definition GREATER_THAN := "greaterThan".
Definition LESS_THAN := "lessThan".
Definition TOP_RANKED := "topRanked".
Definition OPTION_CHECKED := "optionChecked".
End CONDITION_TYPES.

Module OPERATORS.
Definition AND := "and".
Definition OR := "or".
End OPERATORS.

Definition Qlt_bool (x y : Q) : bool := negb (Qle_bool y x).

(** [Array.prototype.sort] with a comparison function: the stable sort.
    [after x y] is [compare(x, y) > 0], the case in which [y] goes first. *)
Section Sort.
Variable A : Type.
Variable after : A -> A -> bool.

Fixpoint insert_sorted (x : A) (l : list A) : list A :=
  match l with
  | [] => [x]
  | y :: t => if after x y then y :: insert_sorted x t else x :: l
  end.

Fixpoint js_sort (l : list A) : list A :=
  match l with
  | [] => []
  | x :: t => insert_sorted x (js_sort t)
  end.
End Sort.

(** [(a, b) => b[1] - a[1]] is positive: a [NaN] difference is not. *)
Definition position_after (a b : string * JsVal) : bool :=
  match to_number (snd b), to_number (snd a) with
  | Some pb, Some pa => Qlt_bool 0 (pb - pa)
  | _, _ => false
  end.

(** [Array.prototype.some] with a callback that may throw. *)
Fixpoint some_exc (A : Type) (f : A -> Exc bool) (l : list A) : Exc bool :=
  match l with
  | [] => Ok false
  | x :: t => let? b := f x in if b then Ok true else some_exc f t
  end.

(** [Array.prototype.map] with a callback that may throw. *)
Fixpoint map_exc (A B : Type) (f : A -> Exc B) (l : list A) : Exc (list B) :=
  match l with
  | [] => Ok []
  | x :: t => let? y := f x in let? ys := map_exc f t in Ok (y :: ys)
  end.

Import CONDITION_TYPES.

Definition evaluateCondition (st : SurveyState) (condition : option ConditionRule) : Exc bool :=
  match condition with
  | None => Ok false
  | Some c =>
    if String.eqb (questionId c) EmptyString || String.eqb (type c) EmptyString then Ok false
    else
    let response := getResponse st (questionId c) in
    if negb (truthy response) && negb (String.eqb (type c) ANSWERED) then Ok false
    else
    let? responseValue :=
      if truthy response then get_prop response "value" else Ok VNull in
    if String.eqb (type c) ANSWERED then
      Ok (truthy response
          && negb (strict_equals responseValue VNull)
          && negb (strict_equals responseValue VUndefined)
          && match responseValue with
             | VStr s => negb (String.eqb (trim s) EmptyString)
             | _ => true
             end)
    else if String.eqb (type c) EQUALS then
      let? other :=
        if String.eqb (typeof responseValue) "object"
        then let? o := get_prop responseValue "isOther" in Ok (truthy o)
        else Ok false in
      if other then Ok false
      else Ok (strict_equals responseValue (value c))
    else if String.eqb (type c) NOT_EQUALS then
      Ok (negb (strict_equals responseValue (value c)))
    else if String.eqb (type c) CONTAINS then
      match responseValue with
      | VArr elems => Ok (existsb (fun x => strict_equals x (value c)) elems)
      | VObj props =>
          Ok (existsb (fun kv => strict_equals (VStr (fst kv)) (value c) && truthy (snd kv))
                      props)
      | _ => Ok false
      end
    else if String.eqb (type c) GREATER_THAN then
      match threshold c with
      | VUndefined | VNull => Ok false
      | t =>
          match parseFloat responseValue, to_number t with
          | Some numValue, Some tv => Ok (Qlt_bool tv numValue)
          | _, _ => Ok false
          end
      end
    else if String.eqb (type c) LESS_THAN then
      match threshold c with
      | VUndefined | VNull => Ok false
      | t =>
          match parseFloat responseValue, to_number t with
          | Some numVal, Some tv => Ok (Qlt_bool numVal tv)
          | _, _ => Ok false
          end
      end
    else if String.eqb (type c) TOP_RANKED then
      if negb (truthy (optionId c)) then Ok false
      else
        let? inner := get_prop responseValue "value" in
        if negb (truthy inner) then Ok false
        else if String.eqb (typeof inner) "object"
                && (Z.of_nat (List.length (map fst (entries inner))) >? 0)
        then
          match js_sort position_after (entries inner) with
          | [] => Ok false
          | top :: _ => Ok (strict_equals (VStr (fst top)) (optionId c))
          end
        else Ok false
    else if String.eqb (type c) OPTION_CHECKED then
      if negb (truthy (optionId c)) then Ok false
      else
        match optionId c with
        | VArr ids =>
            some_exc (fun oid =>
                        let? p := get_prop responseValue (to_string oid) in
                        Ok (strict_equals p (VBool true) || strict_equals responseValue oid))
                     ids
        | oid =>
            if truthy responseValue && String.eqb (typeof responseValue) "object" then
              let? p := get_prop responseValue (to_string oid) in
              Ok (strict_equals p (VBool true))
            else
              match responseValue with
              | VStr s =>
                  if truthy responseValue then Ok (loose_equals_string s oid) else Ok false
              | _ => Ok false
              end
        end
    else Ok false
  end.

Definition shouldShowQuestion (st : SurveyState) (question : Question) : Exc bool :=
  match conditions question with
  | None => Ok true
  | Some group =>
      match rules group with
      | None | Some [] => Ok true
      | Some rs =>
          let op := or_else (operator group) (VStr OPERATORS.AND) in
          let? results := map_exc (evaluateCondition st) rs in
          if strict_equals op (VStr OPERATORS.AND) then
            Ok (forallb (fun result => Bool.eqb result true) results)
          else if strict_equals op (VStr OPERATORS.OR) then
            Ok (existsb (fun result => Bool.eqb result true) results)
          else Ok true
      end
  end.

(** ** surveyNavigation.js *)

(** [validateCurrentStep]; marking the question element with the error
    message is a change of the page only. *)
Definition validateCurrentStep (st : SurveyState) : Exc bool :=
  let? currentStep := getCurrentStep st in
  match currentStep with
  | None => Ok true
  | Some s =>
      match questions s with
      | None => Ok true
      | Some qs => all_answered st (filter required qs)
      end
  end.

(** [handleNextStep], the handler of the Next button.  The result tells
    whether the handler went on to [loadCurrentStep], that is whether it
    moved. *)
Definition handleNextStep (w : World) : Exc bool * World :=
  match validateCurrentStep (surveyState w) with
  | Throw e => (Throw e, w)
  | Ok false => (Ok false, w)
  | Ok true => nextStep w
  end.

(** ** Sessions *)

(** The engine as the page finds it: the initial module state. *)
Definition fresh (ls : LocalStorage) : World :=
  {| surveyState := initial_state; localStorage := ls |}.

Definition empty_storage : LocalStorage :=
  {| survey_current_step := None; survey_responses := None |}.

(** What a page can do with the engine.  [Reload] is a new page load: the
    module state starts again, the storage stays. *)
Inductive Op : Type :=
| Load (fetched : Exc SurveyDefinition)
| GoToStep (index : Z)
| NextStep
| PrevStep
| HandleNextStep
| SaveResponse (questionId : string) (v : JsVal) (comment : option string) (now : string)
| ClearResponses
| Reload.

Definition run (op : Op) (w : World) : World :=
  match op with
  | Load fetched => snd (loadSurveyDefinition fetched w)
  | GoToStep index => snd (goToStep index w)
  | NextStep => snd (nextStep w)
  | PrevStep => snd (prevStep w)
  | HandleNextStep => snd (handleNextStep w)
  | SaveResponse q v c now => snd (saveResponse q v c now w)
  | ClearResponses => clearResponses w
  | Reload => fresh (localStorage w)
  end.

Definition run_all (ops : list Op) (w : World) : World :=
  fold_left (fun acc op => run op acc) ops w.

(** ** Properties the statements below are about *)

(** The rule of the specification for a question that counts as answered:
    its response exists, the value is not null or undefined, is not an empty
    array and is not a blank string. *)
Definition counts_as_answered (response : JsVal) : bool :=
  truthy response
  && match get_prop response "value" with
     | Ok VUndefined | Ok VNull => false
     | Ok (VArr []) => false
     | Ok (VStr s) => negb (String.eqb (trim s) EmptyString)
     | Ok _ => true
     | Throw _ => false
     end.






(** The step index [restoreProgress] leaves: the saved one when it parses to
    a position in the steps of [d], otherwise the current one. *)
Definition restored_index (saved : option string) (d : SurveyDefinition) (current : Z) : Z :=
  match saved, steps d with
  | Some text, Some l =>
      match parseInt text with
      | Some i => if (0 <=? i) && (i <? Z.of_nat (List.length l)) then i else current
      | None => current
      end
  | _, _ => current
  end.

(** [goToStep(index)] has nowhere to go: no survey is loaded, or the index is
    outside the steps of the loaded one. *)
Definition no_such_step (st : SurveyState) (index : Z) : Prop :=
  isLoaded st = false
  \/ exists d l, isLoaded st = true /\ definition st = Some d /\ steps d = Some l
                 /\ (index < 0 \/ index >= Z.of_nat (List.length l)).


(** The first entry of a position mapping that holds the greatest position:
    the entries before it are smaller, the entries after it are not greater. *)
Definition first_greatest (k : string) (positions : list (string * Z)) : Prop :=
  exists before p rest,
    positions = (before ++ (k, p) :: rest)%list
    /\ Forall (fun e => snd e < p) before
    /\ Forall (fun e => snd e <= p) rest.

Definition position_props (positions : list (string * Z)) : Props :=
  map (fun e => (fst e, VNum (snd e))) positions.

(** ** Sample surveys *)

Module Samples.

Definition rule (q t : string) (v : JsVal) : option ConditionRule :=
  Some {| questionId := q; type := t; value := v;
          threshold := VUndefined; optionId := VUndefined |}.

Definition top_rule (q : string) (o : JsVal) : option ConditionRule :=
  Some {| questionId := q; type := TOP_RANKED; value := VUndefined;
          threshold := VUndefined; optionId := o |}.

Definition plain (i : string) (req : bool) : Question :=
  {| q_id := i; required := req; conditions := None |}.

Definition conditional (i : string) (req : bool) (op : JsVal)
    (rs : list (option ConditionRule)) : Question :=
  {| q_id := i; required := req;
     conditions := Some {| operator := op; rules := Some rs |} |}.

Definition step (i : string) (qs : list Question) : Step :=
  {| step_id := i; questions := Some qs |}.

Definition survey (i : string) (ss : list Step) : SurveyDefinition :=
  {| def_id := i; title := VStr "Sample"; steps := Some ss |}.

(** Q2 is required and shown only when Q1 equals "yes". *)
Definition follow_up : Question :=
  conditional "Q2" true (VStr "and") [rule "Q1" EQUALS (VStr "yes")].

Definition branching : SurveyDefinition :=
  survey "branching"
    [step "s1" [plain "Q1" false; follow_up]; step "s2" []; step "s3" []].


Definition loaded (d : SurveyDefinition) : World :=
  snd (loadSurveyDefinition (Ok d) (fresh empty_storage)).

(** Shown when Q1 is answered. *)
Definition when_answered : Question :=
  conditional "Q3" false (VStr "and") [rule "Q1" ANSWERED VUndefined].

Definition now := "2024-01-01T00:00:00.000Z".

(** The branching survey after Q2 was answered. *)
Definition answered_q2 : World :=
  snd (saveResponse "Q2" (VStr "x") None now (loaded branching)).

(** The branching survey after the comment field of Q1 lost the focus
    before Q1 had a response: the value saved with the comment is [null]. *)
Definition commented_q1 : World :=
  snd (saveResponse "Q1" VNull (Some "a comment") now (loaded branching)).

(** The branching survey after Q1 was answered "yes". *)
Definition said_yes : World :=
  snd (saveResponse "Q1" (VStr "yes") None now (loaded branching)).

(** Two rules on Q1: after "yes" the first holds and the second does
    not. *)
Definition yes_then_no : list (option ConditionRule) :=
  [rule "Q1" EQUALS (VStr "yes"); rule "Q1" EQUALS (VStr "no")].

Definition no_then_yes : list (option ConditionRule) :=
  [rule "Q1" EQUALS (VStr "no"); rule "Q1" EQUALS (VStr "yes")].

(** The branching survey after Q1 was saved with an empty array. *)
Definition nothing_checked : World :=
  snd (saveResponse "Q1" (VArr []) None now (loaded branching)).

Definition three_positions : list (string * Z) := [("a", 10); ("b", 90); ("c", 90)].

(** What the multi-value slider hands to [saveResponse] as the value: the
    positions under [value], next to a comment. *)
Definition slider_value : JsVal :=
  VObj [("value", VObj (position_props three_positions)); ("comment", VStr EmptyString)].

Definition slider_saved : World :=
  snd (saveResponse "Q1" slider_value None now (loaded branching)).

(** The positions saved as the value itself. *)
Definition positions_saved : World :=
  snd (saveResponse "Q1" (VObj (position_props [("a", 10); ("b", 90)])) None now
         (loaded branching)).

(** A persistence collaborator that accepts everything. *)
Definition accept (data : SubmissionData) : Exc JsVal := Ok (VStr "saved").

(** The storage a session left at step 2 whose responses item was damaged
    afterwards. *)
Definition damaged : LocalStorage :=
  {| survey_current_step := Some "2";
     survey_responses := Some (Unparseable "{oops") |}.

(** The storage with a response whose comment is blank. *)
Definition blank_comment : LocalStorage :=
  {| survey_current_step := Some "0";
     survey_responses :=
       Some (JsonOf [("Q1", VObj [("value", VStr "yes");
                                   ("timestamp", VStr now);
                                   ("comment", VStr "  ")])]) |}.

End Samples.

Import Samples.

(** * More of the engine *)

From Stdlib Require Import DecimalPos.

(** ** surveyData.js: the remaining readers *)

Definition isSurveyLoaded (st : SurveyState) : bool := isLoaded st.

Definition getSurveyDefinition (st : SurveyState) : option SurveyDefinition :=
  definition st.

(** [getAllSteps]: [Ok None] is [null] (no survey) or [undefined] (a
    definition without steps). *)
Definition getAllSteps (st : SurveyState) : Exc (option (list Step)) :=
  if isLoaded st then definition_steps st else Ok None.

Definition hasNextStep (st : SurveyState) : Exc bool :=
  if negb (isLoaded st) then Ok false
  else
    let? s := definition_steps st in
    match s with
    | None => Throw TypeError
    | Some l => Ok (currentStepIndex st <? Z.of_nat (List.length l) - 1)
    end.

Definition hasPrevStep (st : SurveyState) : bool :=
  if negb (isLoaded st) then false else currentStepIndex st >? 0.

(** ** surveyNavigation.js: the other handlers *)

(** [handlePrevStep]: no validation before [prevStep]. *)
Definition handlePrevStep (w : World) : Exc bool * World := prevStep w.

(** [handleCircleNavigation(index)]: no validation before [goToStep]. *)
Definition handleCircleNavigation (index : Z) (w : World) : Exc bool * World :=
  goToStep index w.

(** The step a click on the progress bar aims at.  [floored] is what
    [Math.floor(clickPercentage * allSteps.length)] gave: the page computes
    that product in floating point from the place of the click and the width
    of the bar, and its floor is taken here as it comes, an integer (an
    infinity, which a bar of width 0 can give, acts as an integer beyond every
    step; NaN, which that bar gives for a click at its left end, is not a
    step index at all and stays outside).  [n] is the number of steps. *)
Definition progressBarTarget (floored : Z) (n : nat) : Z :=
  Z.min (Z.max 0 floored) (Z.of_nat n - 1).

(** [handleProgressBarNavigation], for a page that has a progress bar. *)
Definition handleProgressBarNavigation (floored : Z) (w : World)
    : Exc bool * World :=
  match getAllSteps (surveyState w) with
  | Throw e => (Throw e, w)
  | Ok None => (Ok false, w)
  | Ok (Some allSteps) =>
      if Z.of_nat (List.length allSteps) =? 0 then (Ok false, w)
      else goToStep (progressBarTarget floored (List.length allSteps)) w
  end.

(** [updateProgressBar], for a page that has a progress bar: the width set
    on the bar, in percent; [None] when the bar is left alone. *)
Definition updateProgressBar (st : SurveyState) : Exc (option Q) :=
  let? steps := getAllSteps st in
  match steps with
  | None => Ok None
  | Some l =>
      if Z.of_nat (List.length l) =? 0 then Ok None
      else Ok (Some (inject_Z (getCurrentStepIndex st + 1)
                     / inject_Z (Z.of_nat (List.length l)) * 100)%Q)
  end.

(** What [updateNavigationButtons] sets on the three buttons, when the page
    has them. *)
Record Buttons : Type := {
  prev_disabled : bool;
  next_displayed : bool;
  submit_displayed : bool
}.

Definition updateNavigationButtons (st : SurveyState) : Exc Buttons :=
  let hasPrev := hasPrevStep st in
  let? hasNext := hasNextStep st in
  Ok {| prev_disabled := negb hasPrev;
        next_displayed := hasNext;
        submit_displayed := negb hasNext |}.

Definition lower_ascii (c : ascii) : ascii :=
  let n := nat_of_ascii c in
  if ((65 <=? n) && (n <=? 90))%nat then ascii_of_nat (n + 32) else c.

(** [String.prototype.toLowerCase], on ASCII letters. *)
Fixpoint toLowerCase (s : string) : string :=
  match s with
  | EmptyString => EmptyString
  | String c s' => String (lower_ascii c) (toLowerCase s')
  end.

Definition Qin01 (q : Q) : bool := Qle_bool 0 q && Qle_bool q 1.

(** [getBackgroundOpacity]: a value that is truthy and not a string has no
    [toLowerCase]. *)
Definition getBackgroundOpacity (opacity : JsVal) : Exc Q :=
  if negb (truthy opacity) then Ok (1 # 2)%Q
  else
    match opacity with
    | VStr s =>
        let keyword := toLowerCase s in
        if String.eqb keyword "light" then Ok (1 # 5)%Q
        else if String.eqb keyword "medium" then Ok (1 # 2)%Q
        else if String.eqb keyword "dark" then Ok (4 # 5)%Q
        else
          match parseFloat_string s with
          | Some numValue => if Qin01 numValue then Ok numValue else Ok (1 # 2)%Q
          | None => Ok (1 # 2)%Q
          end
    | _ => Throw TypeError
    end.

(** [getBackgroundPosition]. *)
Definition getBackgroundPosition (position : JsVal) : JsVal :=
  if negb (truthy position) then VStr "center" else position.

(** ** questionRenderers.js: the questions a condition depends on *)

(** [Set.prototype.add]. *)
Definition set_add (x : string) (s : list string) : list string :=
  if existsb (String.eqb x) s then s else (s ++ [x])%list.

(** Adding the [questionId] of every rule; reading it from a rule that is
    [null] is a TypeError. *)
Fixpoint add_rule_ids (rs : list (option ConditionRule)) (s : list string)
    : Exc (list string) :=
  match rs with
  | [] => Ok s
  | None :: _ => Throw TypeError
  | Some r :: rest => add_rule_ids rest (set_add (questionId r) s)
  end.

Fixpoint add_question_ids (qs : list Question) (s : list string) : Exc (list string) :=
  match qs with
  | [] => Ok s
  | q :: rest =>
      match conditions q with
      | Some {| rules := Some rs |} =>
          let? s' := add_rule_ids rs s in add_question_ids rest s'
      | _ => add_question_ids rest s
      end
  end.

(** The set [dependentQuestionIds] that [setupConditionalQuestionListeners]
    builds for a step: the questions whose answers the step's conditions
    read. *)
Definition dependentQuestionIds (s : Step) : Exc (list string) :=
  match questions s with
  | None => Ok []
  | Some qs => add_question_ids qs []
  end.

(** ** The renderers' calls of [saveResponse] *)

(** The blur handler [createCommentField] puts on the comment field: the
    value of the response is kept, the text of the field is the comment. *)
Definition commentField_blur (questionId text now : string) (w : World)
    : Exc bool * World :=
  let currentResponse := getResponse (surveyState w) questionId in
  match (if truthy currentResponse then get_prop currentResponse "value" else Ok VNull) with
  | Throw e => (Throw e, w)
  | Ok v => saveResponse questionId v (Some text) now w
  end.

(** [saveResponse(questionId, positions)] of the multi-value slider in
    questionRenderersExtended.js: positions and comment go into the value. *)
Definition slider_saveResponse (questionId : string) (positions : Props) (now : string)
    (w : World) : Exc bool * World :=
  let currentResponse := or_else (getResponse (surveyState w) questionId) (VObj []) in
  match get_prop currentResponse "comment" with
  | Throw e => (Throw e, w)
  | Ok c =>
      saveResponse questionId
        (VObj [("value", VObj positions); ("comment", or_else c (VStr EmptyString))])
        None now w
  end.

(** The change handler of a checkbox question saves the array of the checked
    option values (here with the "other" box not checked). *)
Definition checkbox_change (questionId : string) (checked : list string)
    (comment : option string) (now : string) (w : World) : Exc bool * World :=
  saveResponse questionId (VArr (map VStr checked)) comment now w.

(** The change handler of a radio option that is not the "other" option. *)
Definition radio_change (questionId value : string) (comment : option string)
    (now : string) (w : World) : Exc bool * World :=
  saveResponse questionId (VStr value) comment now w.

(** ** Properties the further statements are about *)

(** A rule on [q] of type [t]. *)
Definition rule_on (q t : string) (v th o : JsVal) : option ConditionRule :=
  Some {| questionId := q; type := t; value := v; threshold := th; optionId := o |}.

(** The questions the rules of [question] read. *)
Definition reads (question : Question) (q : string) : Prop :=
  exists group rs r,
    conditions question = Some group /\ rules group = Some rs
    /\ In (Some r) rs /\ questionId r = q.

Definition unique_step_ids (l : list Step) : Prop := NoDup (map step_id l).

(** The engine has a survey with steps [l] and stands on one of them. *)
Definition on_survey (d : SurveyDefinition) (l : list Step) (st : SurveyState) : Prop :=
  isLoaded st = true /\ definition st = Some d /\ steps d = Some l
  /\ 0 <= currentStepIndex st < Z.of_nat (List.length l).

Definition white (s : string) : Prop :=
  forall c, In c (list_ascii_of_string s) -> is_whitespace c = true.

Definition no_leading_digit (s : string) : Prop :=
  match s with
  | EmptyString => True
  | String c _ => digit_of c = None
  end.



(** ** Further samples *)

Module MoreSamples.

Definition checkbox_rule (o : JsVal) : option ConditionRule :=
  rule_on "Q1" OPTION_CHECKED VUndefined VUndefined o.

(** A step whose second question depends on the first. *)
Definition first_step : Step := step "s1" [plain "Q1" false; follow_up].

(** The branching survey on its second step. *)
Definition on_second : World := snd (goToStep 1 (loaded branching)).

End MoreSamples.

Import MoreSamples.

(** * Properties *)

Unset Implicit Arguments.

(** [lia] after turning [>=?] and [>?] into [<=?] and [<?]. *)
Ltac zlia :=
  repeat match goal with
         | H : context [Z.geb _ _] |- _ => rewrite Z.geb_leb in H
         | H : context [Z.gtb _ _] |- _ => rewrite Z.gtb_ltb in H
         end;
  rewrite ?Z.geb_leb, ?Z.gtb_ltb; lia.

(** ** Reading values *)

Lemma get_prop_truthy (v : JsVal) (k : string) :
  truthy v = true -> returns (get_prop v k).
Proof.
  unfold returns.
  destruct v as [| |b|n|s|elems|props]; cbn; intros H; try discriminate; eauto.
  - destruct (String.eqb k "length"); eauto.
    destruct (index_of_key k) as [i|]; eauto.
    destruct (String.get i s); eauto.
  - destruct (String.eqb k "length"); eauto.
    destruct (index_of_key k); eauto.
  - destruct (lookup k props); eauto.
Qed.

Lemma getResponse_truthy_or_null (st : SurveyState) (q : string) :
  truthy (getResponse st q) = true \/ getResponse st q = VNull.
Proof.
  unfold getResponse. cbv zeta.
  destruct (truthy (responses_at st q)) eqn:E; auto.
Qed.

Lemma getResponse_own (st : SurveyState) (q : string) (r : JsVal) :
  lookup q (responses st) = Some r ->
  getResponse st q = if truthy r then r else VNull.
Proof. intros H. unfold getResponse, responses_at. rewrite H. reflexivity. Qed.

Lemma responses_put_definition (k : string) (fields : Props) (st : SurveyState) :
  definition (responses_put k fields st) = definition st.
Proof. unfold responses_put. destruct (_ && _); reflexivity. Qed.

Lemma responses_put_index (k : string) (fields : Props) (st : SurveyState) :
  currentStepIndex (responses_put k fields st) = currentStepIndex st.
Proof. unfold responses_put. destruct (_ && _); reflexivity. Qed.

Lemma responses_put_isLoaded (k : string) (fields : Props) (st : SurveyState) :
  isLoaded (responses_put k fields st) = isLoaded st.
Proof. unfold responses_put. destruct (_ && _); reflexivity. Qed.

Lemma required_unanswered_spec (response : JsVal) :
  required_unanswered response = Ok (negb (counts_as_answered response)).
Proof.
  unfold required_unanswered, counts_as_answered.
  destruct (truthy response) eqn:T; cbn [negb andb]; [|reflexivity].
  destruct (get_prop_truthy response "value" T) as [v ->].
  cbn [bindE].
  destruct v as [| |b|n|s|[|x elems]|props]; cbn; try reflexivity.
  destruct (String.eqb (trim s) EmptyString); reflexivity.
Qed.

Lemma all_answered_spec (st : SurveyState) (qs : list Question) :
  all_answered st qs
  = Ok (forallb (fun q => counts_as_answered (getResponse st (q_id q))) qs).
Proof.
  induction qs as [|q qs IH]; cbn [all_answered forallb]; [reflexivity|].
  rewrite required_unanswered_spec. cbn [bindE].
  destruct (counts_as_answered (getResponse st (q_id q))); cbn [negb andb]; auto.
Qed.

Lemma forallb_filter_required (f : Question -> bool) (qs : list Question) :
  forallb f (filter required qs) = forallb (fun q => negb (required q) || f q) qs.
Proof.
  induction qs as [|q qs IH]; cbn [filter forallb]; [reflexivity|].
  destruct (required q); cbn [forallb negb orb]; rewrite IH; reflexivity.
Qed.

(** ** Navigation *)

Lemma getStepByIndex_some (st : SurveyState) (i : Z) (s : Step) :
  getStepByIndex st i = Ok (Some s) ->
  exists d l, isLoaded st = true /\ definition st = Some d /\ steps d = Some l
              /\ 0 <= i < Z.of_nat (List.length l).
Proof.
  unfold getStepByIndex, definition_steps.
  destruct (isLoaded st); cbn [negb]; [|discriminate].
  destruct (definition st) as [d|]; cbn [bindE]; [|discriminate].
  destruct (steps d) as [l|] eqn:Hs; [|discriminate].
  destruct (i <? 0) eqn:E1; cbn [orb]; [discriminate|].
  destruct (i >=? Z.of_nat (List.length l)) eqn:E2; [discriminate|].
  intros _. exists d, l. repeat split; auto; zlia.
Qed.

Lemma goToStep_in_bounds (w : World) (d : SurveyDefinition) (l : list Step) (i : Z) :
  isLoaded (surveyState w) = true ->
  definition (surveyState w) = Some d ->
  steps d = Some l ->
  0 <= i < Z.of_nat (List.length l) ->
  goToStep i w
  = (Ok true,
     saveProgress {| surveyState := set_currentStepIndex i (surveyState w);
                     localStorage := localStorage w |}).
Proof.
  intros Hl Hd Hs Hi. unfold goToStep, definition_steps.
  rewrite Hl, Hd, Hs. cbn [negb].
  destruct (i <? 0) eqn:E1; [lia|].
  destruct (i >=? Z.of_nat (List.length l)) eqn:E2; [zlia|reflexivity].
Qed.

(** C9.  [goToStep] with an index outside the steps of the loaded survey, in
    particular [-1] and [steps.length], or with no survey loaded, returns
    [false] and leaves the engine state and the storage as they were. *)
Theorem goToStep_rejects_out_of_bounds (w : World) (index : Z) :
  no_such_step (surveyState w) index ->
  goToStep index w = (Ok false, w).
Proof.
  unfold no_such_step, goToStep, definition_steps.
  intros [H | (d & l & Hl & Hd & Hs & Hi)].
  - rewrite H. reflexivity.
  - rewrite Hl, Hd, Hs. cbn [negb].
    destruct (index <? 0) eqn:E1; [reflexivity|].
    destruct (index >=? Z.of_nat (List.length l)) eqn:E2; [reflexivity|zlia].
Qed.

Lemma goToStep_rejects_out_of_bounds_witness :
  (no_such_step (surveyState (loaded branching)) 3
   /\ goToStep 3 (loaded branching) = (Ok false, loaded branching))
  /\ (no_such_step (surveyState (loaded branching)) (-1)
      /\ goToStep (-1) (loaded branching) = (Ok false, loaded branching))
  /\ (no_such_step (surveyState (fresh empty_storage)) 0
      /\ goToStep 0 (fresh empty_storage) = (Ok false, fresh empty_storage)).
Proof.
  assert (H3 : no_such_step (surveyState (loaded branching)) 3).
  { right. exists branching, [step "s1" [plain "Q1" false; follow_up]; step "s2" []; step "s3" []].
    repeat split; try reflexivity. right. cbn. lia. }
  assert (Hm : no_such_step (surveyState (loaded branching)) (-1)).
  { right. exists branching, [step "s1" [plain "Q1" false; follow_up]; step "s2" []; step "s3" []].
    repeat split; try reflexivity. left. lia. }
  assert (H0 : no_such_step (surveyState (fresh empty_storage)) 0).
  { left. reflexivity. }
  split; [|split]; (split; [assumption|]).
  - exact (goToStep_rejects_out_of_bounds (loaded branching) 3 H3).
  - exact (goToStep_rejects_out_of_bounds (loaded branching) (-1) Hm).
  - exact (goToStep_rejects_out_of_bounds (fresh empty_storage) 0 H0).
Defined.

(** ** Validation before advancing *)

Lemma validateCurrentStep_spec (st : SurveyState) (s : Step) (qs : list Question) :
  getCurrentStep st = Ok (Some s) ->
  questions s = Some qs ->
  validateCurrentStep st
  = Ok (forallb (fun q => negb (required q)
                          || counts_as_answered (getResponse st (q_id q))) qs).
Proof.
  intros Hs Hq. unfold validateCurrentStep. rewrite Hs. cbn [bindE]. rewrite Hq.
  rewrite all_answered_spec, forallb_filter_required. reflexivity.
Qed.

(** C1, as the code has it.  The validation before advancing looks at every
    required question of the active step, whatever its conditions say: it
    passes exactly when each required question counts as answered.  The
    Next handler moves, to the next step, only when the validation passes;
    otherwise it leaves everything as it was. *)
Theorem handleNextStep_validates_every_required (w : World) (s : Step) (qs : list Question) :
  getCurrentStep (surveyState w) = Ok (Some s) ->
  questions s = Some qs ->
  let valid :=
    forallb (fun q => negb (required q)
                      || counts_as_answered (getResponse (surveyState w) (q_id q))) qs in
  validateCurrentStep (surveyState w) = Ok valid
  /\ (valid = false -> handleNextStep w = (Ok false, w))
  /\ (valid = true -> handleNextStep w = nextStep w)
  /\ (valid = true ->
      forall d l, definition (surveyState w) = Some d -> steps d = Some l ->
      currentStepIndex (surveyState w) + 1 < Z.of_nat (List.length l) ->
      fst (handleNextStep w) = Ok true
      /\ currentStepIndex (surveyState (snd (handleNextStep w)))
         = currentStepIndex (surveyState w) + 1).
Proof.
  intros Hs Hq valid.
  pose proof (validateCurrentStep_spec _ _ _ Hs Hq) as Hv. fold valid in Hv.
  assert (Hnext : valid = true -> handleNextStep w = nextStep w).
  { intros E. unfold handleNextStep. rewrite Hv, E. reflexivity. }
  repeat split.
  - exact Hv.
  - intros E. unfold handleNextStep. rewrite Hv, E. reflexivity.
  - exact Hnext.
  - rewrite (Hnext H). unfold nextStep.
    destruct (getStepByIndex_some _ _ _ Hs) as (d' & l' & Hl & Hd & Hst & Hi).
    rewrite H0 in Hd. injection Hd as <-. rewrite H1 in Hst. injection Hst as <-.
    rewrite (goToStep_in_bounds w d l _ Hl H0 H1) by lia. reflexivity.
  - rewrite (Hnext H). unfold nextStep.
    destruct (getStepByIndex_some _ _ _ Hs) as (d' & l' & Hl & Hd & Hst & Hi).
    rewrite H0 in Hd. injection Hd as <-. rewrite H1 in Hst. injection Hst as <-.
    rewrite (goToStep_in_bounds w d l _ Hl H0 H1) by lia. reflexivity.
Qed.

Lemma handleNextStep_validates_every_required_witness :
  (getCurrentStep (surveyState answered_q2)
   = Ok (Some (step "s1" [plain "Q1" false; follow_up]))
   /\ questions (step "s1" [plain "Q1" false; follow_up])
      = Some [plain "Q1" false; follow_up])
  /\ validateCurrentStep (surveyState answered_q2) = Ok true
  /\ handleNextStep answered_q2 = nextStep answered_q2.
Proof.
  split; [split; reflexivity|].
  pose proof (handleNextStep_validates_every_required answered_q2
                (step "s1" [plain "Q1" false; follow_up])
                [plain "Q1" false; follow_up] eq_refl eq_refl) as H.
  cbv zeta in H. destruct H as (Hv & _ & Hn & _).
  split; [exact Hv | exact (Hn eq_refl)].
Defined.

(** C1 fails: on the first step of the branching survey Q2 is required and
    hidden (its condition on Q1 does not hold) and nothing is answered; the
    validation fails on Q2 and the Next handler does not move. *)
Lemma hidden_required_question_blocks_next :
  getCurrentStep (surveyState (loaded branching))
  = Ok (Some (step "s1" [plain "Q1" false; follow_up]))
  /\ required (plain "Q1" false) = false
  /\ required follow_up = true
  /\ shouldShowQuestion (surveyState (loaded branching)) follow_up = Ok false
  /\ validateCurrentStep (surveyState (loaded branching)) = Ok false
  /\ handleNextStep (loaded branching) = (Ok false, loaded branching).
Proof. repeat split; reflexivity. Qed.

(** ** Submission *)

Lemma or_claims_return (claims : JsVal) :
  truthy claims = true ->
  exists a b c,
    get_prop claims "preferred_username" = Ok a
    /\ get_prop claims "email" = Ok b
    /\ get_prop claims "name" = Ok c.
Proof.
  intros T.
  destruct (get_prop_truthy claims "preferred_username" T) as [a Ha].
  destruct (get_prop_truthy claims "email" T) as [b Hb].
  destruct (get_prop_truthy claims "name" T) as [c Hc].
  exists a, b, c. auto.
Qed.

(** C10.  [submitSurvey] throws its own error, hands nothing to the
    persistence collaborator and leaves the engine as it was exactly when no
    survey is loaded or the response map is empty.  With a loaded survey and a
    response, one payload that carries the whole response map is handed to
    the collaborator, whose outcome is the outcome of the submission. *)
Theorem submitSurvey_empty_submission
    (idTokenClaims : JsVal) (now : string)
    (saveUserData : SubmissionData -> Exc JsVal) (w : World) :
  (isLoaded (surveyState w) = true -> definition (surveyState w) <> None) ->
  let '(result, handed, w') := submitSurvey idTokenClaims now saveUserData w in
  w' = w
  /\ (handed = [] <-> isLoaded (surveyState w) = false \/ responses (surveyState w) = [])
  /\ (handed = [] -> result = Throw (Error "No survey responses to submit"))
  /\ (isLoaded (surveyState w) = true -> responses (surveyState w) <> [] ->
      exists data,
        handed = [data]
        /\ result = saveUserData data
        /\ sub_responses data = responses (surveyState w)
        /\ completedAt data = now
        /\ Some (surveyTitle data) = option_map title (definition (surveyState w))).
Proof.
  intros Hdef. unfold submitSurvey.
  destruct (isLoaded (surveyState w)) eqn:Hl; cbn [negb orb].
  2:{ repeat split; auto; intros; discriminate. }
  destruct (responses (surveyState w)) as [|entry rest] eqn:Hr.
  { cbn. repeat split; auto; intros; congruence. }
  replace (Z.of_nat (List.length (map fst (entry :: rest))) =? 0) with false
    by (cbn [map List.length]; lia).
  destruct (definition (surveyState w)) as [d|] eqn:Hd; [|exfalso; apply Hdef; auto].
  assert (Huser : exists user,
             (if truthy idTokenClaims
              then let? a := get_prop idTokenClaims "preferred_username" in
                   let? b := get_prop idTokenClaims "email" in
                   let? c := get_prop idTokenClaims "name" in
                   Ok (or_else a (or_else b (or_else c (VStr "unknown"))))
              else Ok (VStr "unknown")) = Ok user).
  { destruct (truthy idTokenClaims) eqn:T; [|eauto].
    destruct (or_claims_return idTokenClaims T) as (a & b & c & -> & -> & ->).
    cbn [bindE]. eauto. }
  destruct Huser as [user ->]. cbn [bindE].
  repeat split; auto; try (intros; discriminate).
  - intros [H|H]; discriminate.
  - intros _ _. eexists. repeat split; reflexivity.
Qed.

Lemma submitSurvey_empty_submission_witness :
  (isLoaded (surveyState answered_q2) = true -> definition (surveyState answered_q2) <> None)
  /\ snd (fst (submitSurvey VNull now accept answered_q2))
     = [ {| surveyId := "branching"; surveyTitle := VStr "Sample"; completedAt := now;
            sub_responses := responses (surveyState answered_q2);
            username := VStr "unknown" |} ]
  /\ (snd (fst (submitSurvey VNull now accept answered_q2)) = []
      <-> isLoaded (surveyState answered_q2) = false
          \/ responses (surveyState answered_q2) = []).
Proof.
  assert (Hdef : isLoaded (surveyState answered_q2) = true
                 -> definition (surveyState answered_q2) <> None)
    by (intros _; discriminate).
  split; [exact Hdef|].
  split; [reflexivity|].
  pose proof (submitSurvey_empty_submission VNull now accept answered_q2 Hdef) as H.
  cbn in H. apply H.
Defined.

(** ** Combining the rules of a condition group *)

Lemma strict_equals_VStr (v : JsVal) (s : string) :
  strict_equals v (VStr s) = true <-> v = VStr s.
Proof.
  destruct v; cbn; split; intros H; try discriminate.
  - apply String.eqb_eq in H. congruence.
  - injection H as ->. apply String.eqb_refl.
Qed.

Lemma strict_equals_VStr_l (s : string) (v : JsVal) :
  strict_equals (VStr s) v = true <-> v = VStr s.
Proof.
  destruct v; cbn; split; intros H; try discriminate.
  - apply String.eqb_eq in H. congruence.
  - injection H as ->. apply String.eqb_refl.
Qed.

Lemma map_exc_returns {A B : Type} (f : A -> Exc B) (l : list A) :
  Forall (fun x => returns (f x)) l ->
  exists ys, map_exc f l = Ok ys /\ Forall2 (fun x y => f x = Ok y) l ys.
Proof.
  induction 1 as [|x l [y Hy] _ (ys & Hys & HF)]; cbn [map_exc].
  - exists []. split; [reflexivity|constructor].
  - exists (y :: ys). rewrite Hy, Hys. split; [reflexivity|constructor; assumption].
Qed.

Lemma every_true {A : Type} (f : A -> Exc bool) (l : list A) (results : list bool) :
  Forall2 (fun x y => f x = Ok y) l results ->
  forallb (fun result => Bool.eqb result true) results = true
  <-> Forall (fun x => f x = Ok true) l.
Proof.
  induction 1 as [|x y l results Hxy _ IH]; cbn [forallb].
  - split; [constructor|reflexivity].
  - rewrite Bool.andb_true_iff, IH. split.
    + intros [Hy Hl]. constructor; [|assumption].
      destruct y; [assumption|discriminate].
    + intros Hall. inversion Hall as [|? ? Hx Hl]; subst. split; [|assumption].
      rewrite Hx in Hxy. injection Hxy as <-. reflexivity.
Qed.

Lemma some_true {A : Type} (f : A -> Exc bool) (l : list A) (results : list bool) :
  Forall2 (fun x y => f x = Ok y) l results ->
  existsb (fun result => Bool.eqb result true) results = true
  <-> Exists (fun x => f x = Ok true) l.
Proof.
  induction 1 as [|x y l results Hxy _ IH]; cbn [existsb].
  - split; [discriminate|intros H; inversion H].
  - rewrite Bool.orb_true_iff, IH. split.
    + intros [Hy | Hl]; [left|right; assumption].
      destruct y; [assumption|discriminate].
    + intros Hex. inversion Hex as [? ? Hx|? ? Hl]; subst; [left|right; assumption].
      rewrite Hx in Hxy. injection Hxy as <-. reflexivity.
Qed.

(** C3, as the code has it.  For a question with a non-empty rule list whose
    rules all evaluate, the operator used is the group's, or [OPERATORS.AND]
    when the group's is missing or falsy (so an empty string counts as AND).
    With [OPERATORS.AND] (the string "and") the question is shown iff every
    rule evaluates to true; with [OPERATORS.OR] ("or") iff at least one does;
    with any other operator it is shown. *)
Theorem shouldShowQuestion_combines_rules
    (st : SurveyState) (q : Question) (group : ConditionGroup)
    (rs : list (option ConditionRule)) :
  conditions q = Some group ->
  rules group = Some rs ->
  rs <> [] ->
  Forall (fun r => returns (evaluateCondition st r)) rs ->
  let op := or_else (operator group) (VStr OPERATORS.AND) in
  (truthy (operator group) = false -> op = VStr OPERATORS.AND)
  /\ (truthy (operator group) = true -> op = operator group)
  /\ (op = VStr OPERATORS.AND ->
      exists b, shouldShowQuestion st q = Ok b
                /\ (b = true <-> Forall (fun r => evaluateCondition st r = Ok true) rs))
  /\ (op = VStr OPERATORS.OR ->
      exists b, shouldShowQuestion st q = Ok b
                /\ (b = true <-> Exists (fun r => evaluateCondition st r = Ok true) rs))
  /\ (op <> VStr OPERATORS.AND -> op <> VStr OPERATORS.OR ->
      shouldShowQuestion st q = Ok true).
Proof.
  intros Hc Hr Hne Hall op.
  destruct (map_exc_returns _ _ Hall) as (results & Hmap & HF).
  assert (Hshow : shouldShowQuestion st q
                  = if strict_equals op (VStr OPERATORS.AND)
                    then Ok (forallb (fun result => Bool.eqb result true) results)
                    else if strict_equals op (VStr OPERATORS.OR)
                         then Ok (existsb (fun result => Bool.eqb result true) results)
                         else Ok true).
  { unfold shouldShowQuestion. rewrite Hc, Hr.
    destruct rs as [|r rs']; [congruence|].
    rewrite Hmap. reflexivity. }
  split; [|split; [|split; [|split]]].
  - intros T. unfold op, or_else. rewrite T. reflexivity.
  - intros T. unfold op, or_else. rewrite T. reflexivity.
  - intros E. rewrite Hshow, E. cbn [strict_equals]. rewrite String.eqb_refl.
    eexists. split; [reflexivity|]. apply every_true. exact HF.
  - intros E. rewrite Hshow, E. cbn.
    eexists. split; [reflexivity|]. apply some_true. exact HF.
  - intros Hand Hor. rewrite Hshow.
    destruct (strict_equals op (VStr OPERATORS.AND)) eqn:E1.
    { apply strict_equals_VStr in E1. contradiction. }
    destruct (strict_equals op (VStr OPERATORS.OR)) eqn:E2.
    { apply strict_equals_VStr in E2. contradiction. }
    reflexivity.
Qed.

Lemma shouldShowQuestion_combines_rules_witness :
  Forall (fun r => returns (evaluateCondition (surveyState said_yes) r)) yes_then_no
  /\ (exists b,
        shouldShowQuestion (surveyState said_yes)
          (conditional "Q9" false (VStr "and") yes_then_no) = Ok b
        /\ (b = true <->
            Forall (fun r => evaluateCondition (surveyState said_yes) r = Ok true)
                   yes_then_no))
  /\ (exists b,
        shouldShowQuestion (surveyState said_yes)
          (conditional "Q9" false (VStr "or") no_then_yes) = Ok b
        /\ (b = true <->
            Exists (fun r => evaluateCondition (surveyState said_yes) r = Ok true)
                   no_then_yes))
  /\ shouldShowQuestion (surveyState said_yes)
       (conditional "Q9" false (VStr "xor") yes_then_no) = Ok true.
Proof.
  assert (H1 : Forall (fun r => returns (evaluateCondition (surveyState said_yes) r))
                      yes_then_no)
    by (repeat constructor; eexists; reflexivity).
  assert (H2 : Forall (fun r => returns (evaluateCondition (surveyState said_yes) r))
                      no_then_yes)
    by (repeat constructor; eexists; reflexivity).
  split; [exact H1|].
  split; [|split].
  - destruct (shouldShowQuestion_combines_rules (surveyState said_yes)
                (conditional "Q9" false (VStr "and") yes_then_no) _ yes_then_no
                eq_refl eq_refl ltac:(discriminate) H1)
      as (_ & _ & Hand & _).
    exact (Hand eq_refl).
  - destruct (shouldShowQuestion_combines_rules (surveyState said_yes)
                (conditional "Q9" false (VStr "or") no_then_yes) _ no_then_yes
                eq_refl eq_refl ltac:(discriminate) H2)
      as (_ & _ & _ & Hor & _).
    exact (Hor eq_refl).
  - destruct (shouldShowQuestion_combines_rules (surveyState said_yes)
                (conditional "Q9" false (VStr "xor") yes_then_no) _ yes_then_no
                eq_refl eq_refl ltac:(discriminate) H1)
      as (_ & _ & _ & _ & Hother).
    apply Hother; discriminate.
Defined.

(** The two combinations the specification lists, on the sample rules. *)
Example and_of_true_false_or_of_false_true :
  map_exc (evaluateCondition (surveyState said_yes)) yes_then_no = Ok [true; false]
  /\ shouldShowQuestion (surveyState said_yes)
       (conditional "Q9" false (VStr "and") yes_then_no) = Ok false
  /\ map_exc (evaluateCondition (surveyState said_yes)) no_then_yes = Ok [false; true]
  /\ shouldShowQuestion (surveyState said_yes)
       (conditional "Q9" false (VStr "or") no_then_yes) = Ok true.
Proof. repeat split; reflexivity. Qed.

(** C3 fails for an operator that is the empty string: it is not one of the
    two recognized operators, and the question is not shown, because the
    evaluator replaces a falsy operator by [OPERATORS.AND]. *)
Lemma empty_operator_is_not_fail_open :
  VStr EmptyString <> VStr OPERATORS.AND
  /\ VStr EmptyString <> VStr OPERATORS.OR
  /\ evaluateCondition (surveyState (loaded branching)) (rule "Q1" EQUALS (VStr "yes"))
     = Ok false
  /\ shouldShowQuestion (surveyState (loaded branching))
       (conditional "Q9" false (VStr EmptyString) [rule "Q1" EQUALS (VStr "yes")])
     = Ok false.
Proof. repeat split; try discriminate; reflexivity. Qed.

(** ** The rule [answered] *)

(** What the rule [answered] computes, next to the rule of the response
    store: the two differ on a response whose value is an empty array. *)
Lemma answered_rule_spec (st : SurveyState) (q : string) (v t o : JsVal) :
  q <> EmptyString ->
  evaluateCondition st
    (Some {| questionId := q; type := ANSWERED; value := v;
             threshold := t; optionId := o |})
  = Ok (counts_as_answered (getResponse st q)
        || match get_prop (getResponse st q) "value" with
           | Ok (VArr []) => true
           | _ => false
           end).
Proof.
  intros Hq. unfold evaluateCondition. cbn [questionId type].
  apply String.eqb_neq in Hq. rewrite Hq. cbn [orb].
  replace (String.eqb ANSWERED EmptyString) with false by reflexivity.
  replace (String.eqb ANSWERED ANSWERED) with true by reflexivity.
  rewrite Bool.andb_false_r.
  unfold counts_as_answered.
  destruct (getResponse_truthy_or_null st q) as [T | ->]; [|reflexivity].
  rewrite T. destruct (get_prop_truthy _ "value" T) as [x ->]. cbn [bindE andb].
  destruct x as [| |b|n|s|[|y elems]|props]; cbn; try reflexivity.
  destruct (String.eqb (trim s) EmptyString); reflexivity.
Qed.

(** C2 at the failing input: once Q1 is saved with an empty array, the
    question that depends on Q1 being answered is shown, although the response
    store does not count Q1 as answered. *)
Theorem answered_rule_accepts_empty_array :
  fst (saveResponse "Q1" (VArr []) None now (loaded branching)) = Ok true
  /\ getResponse (surveyState nothing_checked) "Q1"
     = VObj [("value", VArr []); ("timestamp", VStr now)]
  /\ required_unanswered (getResponse (surveyState nothing_checked) "Q1") = Ok true
  /\ shouldShowQuestion (surveyState nothing_checked) when_answered = Ok true.
Proof. repeat split; reflexivity. Qed.

(** The other cases of C2 on the same question: hidden before any response,
    shown after a non-empty value, hidden again after an empty string. *)
Example answered_rule_other_cases :
  shouldShowQuestion (surveyState (loaded branching)) when_answered = Ok false
  /\ shouldShowQuestion (surveyState said_yes) when_answered = Ok true
  /\ shouldShowQuestion
       (surveyState (snd (saveResponse "Q1" (VStr EmptyString) None now said_yes)))
       when_answered = Ok false.
Proof. repeat split; reflexivity. Qed.

(** ** What throws and what does not *)

(** C7 at the failing input: the comment field of Q1 saved the value [null];
    evaluating the condition of Q2, a rule [equals] on Q1, reads [isOther] of
    [null] and throws.  A rule [topRanked] on Q1 throws as well, reading
    [value] of [null]. *)
Theorem shouldShowQuestion_throws_on_null_value :
  fst (saveResponse "Q1" VNull (Some "a comment") now (loaded branching)) = Ok true
  /\ getResponse (surveyState commented_q1) "Q1"
     = VObj [("value", VNull); ("timestamp", VStr now); ("comment", VStr "a comment")]
  /\ shouldShowQuestion (surveyState commented_q1) follow_up = Throw TypeError
  /\ shouldShowQuestion (surveyState commented_q1)
       (conditional "Q4" false (VStr "or") [top_rule "Q1" (VStr "a")])
     = Throw TypeError.
Proof. repeat split; reflexivity. Qed.

(** With a definition that has a steps array, navigation does not throw,
    and the check of the required questions never does once the definition
    is there. *)
Lemma goToStep_returns (index : Z) (w : World) (d : SurveyDefinition) (l : list Step) :
  definition (surveyState w) = Some d ->
  steps d = Some l ->
  returns (fst (goToStep index w))
  /\ returns (fst (nextStep w))
  /\ returns (fst (prevStep w)).
Proof.
  intros Hd Hs.
  assert (H : forall i, returns (fst (goToStep i w))).
  { intros i. unfold goToStep, definition_steps, returns. rewrite Hd, Hs.
    destruct (negb (isLoaded (surveyState w))); [cbn [fst]; eauto|].
    destruct (i <? 0); [cbn [fst]; eauto|].
    destruct (i >=? Z.of_nat (List.length l)); cbn [fst]; eauto. }
  repeat split; apply H.
Qed.

Lemma areAllRequiredQuestionsAnswered_returns (st : SurveyState) (stepId : string) :
  (isLoaded st = true -> definition st <> None) ->
  returns (areAllRequiredQuestionsAnswered st stepId).
Proof.
  intros Hd. unfold areAllRequiredQuestionsAnswered, getStepById, definition_steps, returns.
  destruct (isLoaded st); cbn [negb bindE]; [|eauto].
  destruct (definition st) as [d|]; [|exfalso; apply Hd; reflexivity].
  cbn [bindE]. destruct (steps d) as [l|]; cbn [bindE]; [|eauto].
  destruct (find _ l) as [s|]; cbn [bindE]; [|eauto].
  destruct (questions s) as [qs|]; [|eauto].
  rewrite all_answered_spec. eauto.
Qed.

(** The branches that test the value before reading it do not throw on the
    same store. *)
Example guarded_rules_on_null_value :
  evaluateCondition (surveyState commented_q1) (rule "Q1" CONTAINS (VStr "a")) = Ok false
  /\ evaluateCondition (surveyState commented_q1)
       (Some {| questionId := "Q1"; type := OPTION_CHECKED; value := VUndefined;
                threshold := VUndefined; optionId := VStr "a" |}) = Ok false.
Proof. split; reflexivity. Qed.

(** ** The rule [topRanked] *)

Lemma Qlt_bool_inject_Z (a b : Z) :
  Qlt_bool 0 (inject_Z b - inject_Z a) = (a <? b).
Proof.
  unfold Qlt_bool, Qle_bool, Qminus, Qplus, Qopp, inject_Z. cbn.
  destruct (Z.ltb_spec a b); destruct (Z.leb_spec ((b * 1 + - a * 1) * 1) 0);
    cbn; try reflexivity; lia.
Qed.

Lemma position_after_num (k1 k2 : string) (p1 p2 : Z) :
  position_after (k1, VNum p1) (k2, VNum p2) = (p1 <? p2).
Proof. unfold position_after. cbn [snd to_number]. apply Qlt_bool_inject_Z. Qed.

Lemma insert_sorted_In {A : Type} (after : A -> A -> bool) (x y : A) (l : list A) :
  In y (insert_sorted after x l) -> y = x \/ In y l.
Proof.
  induction l as [|z l IH]; cbn [insert_sorted].
  - intros [<-|[]]. auto.
  - destruct (after x z).
    + intros [<-|H]; [right; left; reflexivity|].
      destruct (IH H); [auto|right; right; assumption].
    + intros [<-|H]; auto.
Qed.

Lemma js_sort_In {A : Type} (after : A -> A -> bool) (y : A) (l : list A) :
  In y (js_sort after l) -> In y l.
Proof.
  induction l as [|x l IH]; cbn [js_sort]; [auto|].
  intros H. destruct (insert_sorted_In _ _ _ _ H) as [->|H']; [left|right]; auto.
Qed.

Lemma position_props_In (y : string * JsVal) (positions : list (string * Z)) :
  In y (position_props positions) ->
  exists e, In e positions /\ y = (fst e, VNum (snd e)).
Proof.
  unfold position_props. rewrite in_map_iff. intros (e & <- & He). eauto.
Qed.

(** The entry the descending stable sort puts first is the first entry with
    the greatest position. *)
Lemma sorted_head_first_greatest
    (before : list (string * Z)) (k : string) (p : Z) (rest : list (string * Z)) :
  Forall (fun e => snd e < p) before ->
  Forall (fun e => snd e <= p) rest ->
  hd_error (js_sort position_after (position_props (before ++ (k, p) :: rest)))
  = Some (k, VNum p).
Proof.
  intros Hb Hr. induction Hb as [|[k' p'] before Hlt _ IH].
  - cbn [app position_props map js_sort fst snd].
    fold (position_props rest).
    destruct (js_sort position_after (position_props rest)) as [|y t] eqn:E;
      [reflexivity|].
    assert (Hy : In y (position_props rest)).
    { apply (js_sort_In position_after). rewrite E. left. reflexivity. }
    destruct (position_props_In _ _ Hy) as ([ky py] & He & ->).
    rewrite Forall_forall in Hr. specialize (Hr _ He). cbn [fst snd] in *.
    cbn [insert_sorted]. rewrite position_after_num.
    destruct (Z.ltb_spec p py); [lia|reflexivity].
  - cbn [app position_props map js_sort fst snd] in *.
    fold (position_props (before ++ (k, p) :: rest)) in *.
    destruct (js_sort position_after (position_props (before ++ (k, p) :: rest)))
      as [|y t]; [discriminate|].
    cbn [hd_error] in IH. injection IH as ->.
    cbn [insert_sorted]. rewrite position_after_num.
    destruct (Z.ltb_spec p' p); [reflexivity|lia].
Qed.

Lemma first_greatest_exists (positions : list (string * Z)) :
  positions <> [] -> exists k, first_greatest k positions.
Proof.
  induction positions as [|[k1 p1] tail IH]; [congruence|]. intros _.
  destruct tail as [|e tail'].
  - exists k1, [], p1, []. repeat split; constructor.
  - destruct IH as (k & before & p & rest & Heq & Hb & Hr); [discriminate|].
    destruct (Z_lt_le_dec p1 p) as [Hlt|Hge].
    + exists k, ((k1, p1) :: before), p, rest. rewrite Heq.
      repeat split; [constructor|]; assumption.
    + exists k1, [], p1, (e :: tail'). repeat split; [constructor|].
      rewrite Heq. apply Forall_app. split.
      * eapply Forall_impl; [|exact Hb]. cbn. intros; lia.
      * constructor; [cbn; lia|].
        eapply Forall_impl; [|exact Hr]. cbn. intros; lia.
Qed.

Lemma topRanked_unfold (st : SurveyState) (q : string) (v t oid : JsVal) :
  q <> EmptyString ->
  evaluateCondition st
    (Some {| questionId := q; type := TOP_RANKED; value := v;
             threshold := t; optionId := oid |})
  = if negb (truthy (getResponse st q)) then Ok false
    else
      let? responseValue := get_prop (getResponse st q) "value" in
      if negb (truthy oid) then Ok false
      else
        let? inner := get_prop responseValue "value" in
        if negb (truthy inner) then Ok false
        else if String.eqb (typeof inner) "object"
                && (Z.of_nat (List.length (map fst (entries inner))) >? 0)
        then
          match js_sort position_after (entries inner) with
          | [] => Ok false
          | top :: _ => Ok (strict_equals (VStr (fst top)) oid)
          end
        else Ok false.
Proof.
  intros Hq. apply String.eqb_neq in Hq.
  unfold evaluateCondition. cbn [questionId type optionId]. rewrite Hq.
  destruct (truthy (getResponse st q)); reflexivity.
Qed.

(** C4, as the code has it.  The rule [topRanked] reads the position mapping
    from the [value] property of the stored response value (the shape the
    multi-value slider saves), not from the stored value itself.  When that
    property is a non-empty mapping from option ids to numbers, the rule holds
    iff its [optionId] is the key of the first entry with the greatest
    position.  It does not hold when the mapping is empty, when there is no
    response, or when [optionId] is missing. *)
Theorem topRanked_reads_wrapped_positions
    (st : SurveyState) (q : string) (v t oid : JsVal) :
  q <> EmptyString ->
  let c := Some {| questionId := q; type := TOP_RANKED; value := v;
                   threshold := t; optionId := oid |} in
  (getResponse st q = VNull -> evaluateCondition st c = Ok false)
  /\ (truthy oid = false -> evaluateCondition st c = Ok false)
  /\ (forall fields wrapper,
        getResponse st q = VObj fields ->
        lookup "value" fields = Some wrapper ->
        get_prop wrapper "value" = Ok (VObj []) ->
        evaluateCondition st c = Ok false)
  /\ (forall fields wrapper positions,
        getResponse st q = VObj fields ->
        lookup "value" fields = Some wrapper ->
        get_prop wrapper "value" = Ok (VObj (position_props positions)) ->
        positions <> [] ->
        truthy oid = true ->
        exists b, evaluateCondition st c = Ok b
                  /\ (b = true <-> exists k, oid = VStr k /\ first_greatest k positions)).
Proof.
  intros Hq c. unfold c. rewrite (topRanked_unfold st q v t oid Hq).
  split; [|split; [|split]].
  - intros ->. reflexivity.
  - intros T. destruct (getResponse_truthy_or_null st q) as [Tr | ->]; [|reflexivity].
    rewrite Tr. destruct (get_prop_truthy _ "value" Tr) as [x ->].
    cbn [negb bindE]. rewrite T. reflexivity.
  - intros fields wrapper Hresp Hval Hinner. rewrite Hresp.
    cbn [truthy negb get_prop]. rewrite Hval. cbn [bindE].
    destruct (truthy oid); [|reflexivity]. cbn [negb].
    rewrite Hinner. reflexivity.
  - intros fields wrapper positions Hresp Hval Hinner Hne T. rewrite Hresp.
    cbn [truthy negb get_prop]. rewrite Hval. cbn [bindE]. rewrite T. cbn [negb].
    rewrite Hinner. cbn [bindE truthy negb typeof entries].
    replace (String.eqb "object" "object") with true by reflexivity.
    replace (Z.of_nat (List.length (map fst (position_props positions))) >? 0) with true.
    2:{ destruct positions; [congruence|]. cbn [position_props map List.length]. lia. }
    cbn [andb].
    destruct (first_greatest_exists positions Hne) as (k & before & p & rest & Heq & Hb & Hr).
    pose proof (sorted_head_first_greatest before k p rest Hb Hr) as Hhead.
    rewrite <- Heq in Hhead.
    destruct (js_sort position_after (position_props positions)) as [|top tl];
      [discriminate|].
    cbn [hd_error] in Hhead. injection Hhead as ->. cbn [fst].
    eexists. split; [reflexivity|].
    split.
    + intros ->%strict_equals_VStr_l. exists k. split; [reflexivity|].
      exists before, p, rest. auto.
    + intros (k' & -> & before' & p' & rest' & Heq' & Hb' & Hr').
      pose proof (sorted_head_first_greatest before' k' p' rest' Hb' Hr') as Hhead'.
      rewrite <- Heq', Heq in Hhead'.
      rewrite (sorted_head_first_greatest before k p rest Hb Hr) in Hhead'.
      injection Hhead' as -> ->. apply strict_equals_VStr_l. reflexivity.
Qed.

Lemma topRanked_reads_wrapped_positions_witness :
  "Q1" <> EmptyString
  /\ getResponse (surveyState slider_saved) "Q1"
     = VObj [("value", slider_value); ("timestamp", VStr now)]
  /\ three_positions <> []
  /\ exists b,
       evaluateCondition (surveyState slider_saved) (top_rule "Q1" (VStr "b")) = Ok b
       /\ (b = true <-> exists k, VStr "b" = VStr k /\ first_greatest k three_positions).
Proof.
  assert (Hq : "Q1" <> EmptyString) by discriminate.
  assert (Hne : three_positions <> []) by discriminate.
  split; [exact Hq|]. split; [reflexivity|]. split; [exact Hne|].
  destruct (topRanked_reads_wrapped_positions (surveyState slider_saved) "Q1"
              VUndefined VUndefined (VStr "b") Hq) as (_ & _ & _ & H).
  exact (H [("value", slider_value); ("timestamp", VStr now)] slider_value
           three_positions eq_refl eq_refl eq_refl Hne eq_refl).
Defined.

(** Of two options in the greatest position the one listed first is the top
    one. *)
Example topRanked_tie :
  evaluateCondition (surveyState slider_saved) (top_rule "Q1" (VStr "b")) = Ok true
  /\ evaluateCondition (surveyState slider_saved) (top_rule "Q1" (VStr "c")) = Ok false.
Proof. split; reflexivity. Qed.

(** C4 fails when the stored response value is the position mapping itself:
    "b" holds the greatest position, and the rule for "b" does not hold. *)
Lemma topRanked_ignores_plain_positions :
  getResponse (surveyState positions_saved) "Q1"
  = VObj [("value", VObj (position_props [("a", 10); ("b", 90)]));
          ("timestamp", VStr now)]
  /\ first_greatest "b" [("a", 10); ("b", 90)]
  /\ evaluateCondition (surveyState positions_saved) (top_rule "Q1" (VStr "b")) = Ok false.
Proof.
  split; [reflexivity|]. split; [|reflexivity].
  exists [("a", 10)], 90, []. repeat split; repeat constructor.
Qed.

(** ** Restoring the progress *)

Lemma restoreProgress_spec (w : World) :
  let st := surveyState w in
  let st' := surveyState (restoreProgress w) in
  localStorage (restoreProgress w) = localStorage w
  /\ definition st' = definition st
  /\ isLoaded st' = isLoaded st
  /\ (forall d, definition st = Some d ->
      currentStepIndex st'
      = restored_index (survey_current_step (localStorage w)) d (currentStepIndex st))
  /\ (definition st = None -> currentStepIndex st' = currentStepIndex st)
  /\ ((responses st' = responses st /\ responses_proto st' = responses_proto st)
      \/ exists m, survey_responses (localStorage w) = Some (JsonOf m)
                   /\ responses st' = m /\ responses_proto st' = None)
  /\ (forall text, survey_responses (localStorage w) = Some (Unparseable text) ->
      responses st' = responses st).
Proof.
  destruct w as [st ls]. cbn [surveyState localStorage].
  unfold restoreProgress, restored_index. cbn [surveyState localStorage].
  destruct (survey_current_step ls) as [saved|];
    [destruct (parseInt saved) as [i|]|];
    [destruct (Z.geb_spec i 0) as [Hi|Hi]; cbn [negb]|..];
    [destruct (definition st) as [d|] eqn:Hd;
     [destruct (steps d) as [l|] eqn:Hs;
      [destruct (Z.ltb_spec i (Z.of_nat (List.length l))) as [Hb|Hb]|]|]|..];
    destruct (survey_responses ls) as [[text|m]|] eqn:Hr;
    cbn [surveyState localStorage set_responses set_currentStepIndex definition
         isLoaded currentStepIndex responses responses_proto];
    (repeat split; auto;
     try (intros d' Hd'; try discriminate; try (injection Hd' as <-);
          rewrite ?Hs; try destruct (steps d') as [l'|];
          repeat match goal with
                 | |- context [?a <=? ?b] => destruct (Z.leb_spec a b)
                 | |- context [?a <? ?b] => destruct (Z.ltb_spec a b)
                 end; cbn [andb]; try reflexivity; lia);
     try (intros; discriminate);
     try (right; eexists; repeat split; reflexivity)).
Qed.

(** C6, as the code has it.  When the responses item does not parse, a load
    whose fetch succeeds does not throw and leaves the response map as it was
    (empty on an engine that has just started); the step index is the saved
    one when that parses to a position in the steps of the new definition,
    and is otherwise left as it was.  It is not reset to 0. *)
Theorem load_with_unparseable_responses
    (w : World) (d : SurveyDefinition) (text : string) :
  survey_responses (localStorage w) = Some (Unparseable text) ->
  exists w',
    loadSurveyDefinition (Ok d) w = (Ok d, w')
    /\ localStorage w' = localStorage w
    /\ definition (surveyState w') = Some d
    /\ isLoaded (surveyState w') = true
    /\ responses (surveyState w') = responses (surveyState w)
    /\ currentStepIndex (surveyState w')
       = restored_index (survey_current_step (localStorage w)) d
           (currentStepIndex (surveyState w)).
Proof.
  intros Hr. unfold loadSurveyDefinition. eexists. split; [reflexivity|].
  match goal with |- context [restoreProgress ?x] => set (w0 := x) end.
  destruct (restoreProgress_spec w0) as (Hls & Hd & Hl & Hi & _ & _ & Hresp).
  cbv zeta in *. subst w0. cbn [surveyState localStorage definition isLoaded
                                 currentStepIndex responses] in *.
  repeat split; auto. exact (Hresp text Hr).
Qed.

Lemma load_with_unparseable_responses_witness :
  survey_responses (localStorage (fresh damaged)) = Some (Unparseable "{oops")
  /\ exists w',
       loadSurveyDefinition (Ok branching) (fresh damaged) = (Ok branching, w')
       /\ responses (surveyState w') = []
       /\ currentStepIndex (surveyState w') = 2.
Proof.
  split; [reflexivity|].
  destruct (load_with_unparseable_responses (fresh damaged) branching "{oops" eq_refl)
    as (w' & H1 & _ & _ & _ & H2 & H3).
  exists w'. repeat split; assumption.
Defined.

(** C6 fails: the storage holds step "2" and a responses item that does not
    parse; after loading the three-step survey on a new page the response map
    is empty and the step index is 2. *)
Lemma corrupt_responses_keep_saved_step :
  survey_responses damaged = Some (Unparseable "{oops")
  /\ fst (loadSurveyDefinition (Ok branching) (fresh damaged)) = Ok branching
  /\ responses (surveyState (snd (loadSurveyDefinition (Ok branching) (fresh damaged)))) = []
  /\ currentStepIndex
       (surveyState (snd (loadSurveyDefinition (Ok branching) (fresh damaged)))) = 2.
Proof. repeat split; reflexivity. Qed.

(** ** The step index *)

Lemma goToStep_cases (index : Z) (w : World) :
  snd (goToStep index w) = w
  \/ exists d l,
       isLoaded (surveyState w) = true
       /\ definition (surveyState w) = Some d
       /\ steps d = Some l
       /\ 0 <= index < Z.of_nat (List.length l)
       /\ goToStep index w
          = (Ok true,
             saveProgress {| surveyState := set_currentStepIndex index (surveyState w);
                             localStorage := localStorage w |}).
Proof.
  unfold goToStep, definition_steps.
  destruct (isLoaded (surveyState w)) eqn:Hl; cbn [negb]; [|auto].
  destruct (Z.ltb_spec index 0); [auto|].
  destruct (definition (surveyState w)) as [d|] eqn:Hd; [|auto].
  destruct (steps d) as [l|] eqn:Hs; [|auto].
  destruct (Z.geb_spec index (Z.of_nat (List.length l))); [auto|].
  right. exists d, l. repeat split; auto; lia.
Qed.







(** ** Comments *)






Lemma lookup_assign_same (k : string) (r : JsVal) (store : Props) :
  lookup k (assign k r store) = Some r.
Proof.
  induction store as [|[k' x] rest IH]; cbn [assign lookup].
  - rewrite String.eqb_refl. reflexivity.
  - destruct (String.eqb k k') eqn:E; cbn [lookup]; rewrite ?String.eqb_refl, ?E; auto.
Qed.




(** Reading back what was just written, also under [__proto__]. *)
Lemma getResponse_put_same (k : string) (fields : Props) (st : SurveyState) :
  lookup "__proto__" fields = None ->
  getResponse (responses_put k fields st) k = VObj fields.
Proof.
  intros Hf. unfold getResponse, responses_at, responses_put.
  destruct (String.eqb k "__proto__") eqn:Ek; cbn [andb].
  - destruct (lookup k (responses st)) eqn:El; cbn [responses responses_proto].
    + rewrite lookup_assign_same. reflexivity.
    + rewrite El. apply String.eqb_eq in Ek. subst k. rewrite Hf. reflexivity.
  - cbn [responses responses_proto]. rewrite lookup_assign_same. reflexivity.
Qed.






(** * Further properties *)

(** ** The response store *)

Lemma lookup_assign_other (k k' : string) (r : JsVal) (store : Props) :
  k' <> k -> lookup k' (assign k r store) = lookup k' store.
Proof.
  intros Hk. apply String.eqb_neq in Hk.
  induction store as [|[k0 x] rest IH]; cbn [assign lookup].
  - rewrite Hk. reflexivity.
  - destruct (String.eqb k k0) eqn:E; cbn [lookup].
    + apply String.eqb_eq in E. subst k0. rewrite Hk. reflexivity.
    + rewrite IH. reflexivity.
Qed.

Lemma getResponse_put_other (k k' : string) (fields : Props) (st : SurveyState) :
  k <> "__proto__" -> k' <> k ->
  getResponse (responses_put k fields st) k' = getResponse st k'.
Proof.
  intros Hk Hk'. apply String.eqb_neq in Hk.
  unfold getResponse, responses_at, responses_put. rewrite Hk.
  cbn [andb responses responses_proto].
  rewrite (lookup_assign_other k k' _ _ Hk'). reflexivity.
Qed.

Lemma saved_fields_no_proto (v : JsVal) (c : option string) (now : string) :
  lookup "__proto__"
    (("value", v) :: ("timestamp", VStr now)
     :: match c with
        | Some text =>
            if String.eqb (trim text) EmptyString then []
            else [("comment", VStr text)]
        | None => []
        end) = None.
Proof.
  destruct c as [text|]; [|reflexivity].
  destruct (String.eqb (trim text) EmptyString); reflexivity.
Qed.

Lemma saveResponse_loaded (q : string) (v : JsVal) (c : option string) (now : string)
    (w : World) :
  isLoaded (surveyState w) = true ->
  saveResponse q v c now w
  = (Ok true,
     saveProgress
       {| surveyState :=
            responses_put q
              (("value", v) :: ("timestamp", VStr now)
               :: match c with
                  | Some text =>
                      if String.eqb (trim text) EmptyString then []
                      else [("comment", VStr text)]
                  | None => []
                  end)
              (surveyState w);
          localStorage := localStorage w |}).
Proof.
  intros Hl. unfold saveResponse. rewrite Hl. cbn [negb].
  destruct c as [text|]; [|reflexivity].
  destruct (String.eqb (trim text) EmptyString); reflexivity.
Qed.

(** X1.  On a loaded engine [saveResponse] succeeds and [getResponse] then
    returns exactly the object just built: the value, the time stamp, and the
    comment when one was given that is not blank.  Nothing of an earlier
    response to the question is kept, an earlier comment included. *)
Theorem saveResponse_then_getResponse
    (q : string) (v : JsVal) (c : option string) (now : string) (w : World) :
  isLoaded (surveyState w) = true ->
  fst (saveResponse q v c now w) = Ok true
  /\ getResponse (surveyState (snd (saveResponse q v c now w))) q
     = VObj (("value", v) :: ("timestamp", VStr now)
             :: match c with
                | Some text =>
                    if String.eqb (trim text) EmptyString then []
                    else [("comment", VStr text)]
                | None => []
                end).
Proof.
  intros Hl. rewrite (saveResponse_loaded q v c now w Hl). split; [reflexivity|].
  unfold saveProgress. cbn [snd surveyState].
  apply getResponse_put_same. apply saved_fields_no_proto.
Qed.

Lemma saveResponse_then_getResponse_witness :
  isLoaded (surveyState commented_q1) = true
  /\ getResponse (surveyState commented_q1) "Q1"
     = VObj [("value", VNull); ("timestamp", VStr now); ("comment", VStr "a comment")]
  /\ getResponse (surveyState (snd (saveResponse "Q1" (VStr "yes") None now commented_q1))) "Q1"
     = VObj [("value", VStr "yes"); ("timestamp", VStr now)].
Proof.
  split; [reflexivity|]. split; [reflexivity|].
  exact (proj2 (saveResponse_then_getResponse "Q1" (VStr "yes") None now commented_q1
                  eq_refl)).
Defined.

(** X2.  [saveResponse] for a question whose id is not [__proto__] leaves
    the responses to all other questions, the step index and the loaded
    definition as they were.  (Under the id [__proto__] the response becomes
    the prototype of the response map, and its properties are then read as
    responses, see [saving_under_proto_is_read_elsewhere].) *)
Theorem saveResponse_keeps_the_rest
    (q q' : string) (v : JsVal) (c : option string) (now : string) (w : World) :
  q <> "__proto__" ->
  q' <> q ->
  getResponse (surveyState (snd (saveResponse q v c now w))) q'
  = getResponse (surveyState w) q'
  /\ currentStepIndex (surveyState (snd (saveResponse q v c now w)))
     = currentStepIndex (surveyState w)
  /\ definition (surveyState (snd (saveResponse q v c now w)))
     = definition (surveyState w)
  /\ isLoaded (surveyState (snd (saveResponse q v c now w)))
     = isLoaded (surveyState w).
Proof.
  intros Hp Hq. destruct (isLoaded (surveyState w)) eqn:Hl.
  - rewrite (saveResponse_loaded q v c now w Hl).
    unfold saveProgress. cbn [snd surveyState].
    rewrite responses_put_index, responses_put_definition, responses_put_isLoaded.
    repeat split; auto.
    apply getResponse_put_other; assumption.
  - unfold saveResponse. rewrite Hl. cbn [negb snd]. auto.
Qed.

Lemma saveResponse_keeps_the_rest_witness :
  ("Q2" <> "__proto__" /\ "Q1" <> "Q2")
  /\ getResponse (surveyState (snd (saveResponse "Q2" (VStr "x") None now said_yes))) "Q1"
     = getResponse (surveyState said_yes) "Q1".
Proof.
  assert (Hp : "Q2" <> "__proto__") by discriminate.
  assert (H : "Q1" <> "Q2") by discriminate.
  split; [split; assumption|].
  exact (proj1 (saveResponse_keeps_the_rest "Q2" "Q1" (VStr "x") None now said_yes Hp H)).
Defined.

(** What X2 leaves out: on the loaded branching survey, saving the answer
    "yes" under the id [__proto__] adds no entry to the response map, and
    [getResponse] then returns the string "yes" for the id [value], which had
    no response before. *)
Example saving_under_proto_is_read_elsewhere :
  getResponse (surveyState (loaded branching)) "value" = VNull
  /\ responses (surveyState (snd (saveResponse "__proto__" (VStr "yes") None now
                                   (loaded branching)))) = []
  /\ getResponse (surveyState (snd (saveResponse "__proto__" (VStr "yes") None now
                                     (loaded branching)))) "value" = VStr "yes".
Proof. repeat split; reflexivity. Qed.

(** X3.  With no survey loaded every way of saving a response, the call
    itself and the handlers of the comment field, the slider, the check boxes
    and the radio buttons, returns [false] without throwing and changes
    neither the engine state nor the storage. *)
Theorem saving_needs_a_survey
    (q : string) (v : JsVal) (c : option string) (text now : string)
    (positions : Props) (checked : list string) (w : World) :
  isLoaded (surveyState w) = false ->
  saveResponse q v c now w = (Ok false, w)
  /\ commentField_blur q text now w = (Ok false, w)
  /\ slider_saveResponse q positions now w = (Ok false, w)
  /\ checkbox_change q checked c now w = (Ok false, w)
  /\ radio_change q text c now w = (Ok false, w).
Proof.
  intros Hl.
  assert (H : forall q v c now, saveResponse q v c now w = (Ok false, w)).
  { intros. unfold saveResponse. rewrite Hl. reflexivity. }
  repeat split; try apply H.
  - unfold commentField_blur.
    destruct (getResponse_truthy_or_null (surveyState w) q) as [T | E].
    + rewrite T. destruct (get_prop_truthy _ "value" T) as [x ->]. apply H.
    + rewrite E. cbn [truthy]. apply H.
  - unfold slider_saveResponse.
    assert (T : truthy (or_else (getResponse (surveyState w) q) (VObj [])) = true).
    { unfold or_else. destruct (truthy (getResponse (surveyState w) q)) eqn:E; auto. }
    destruct (get_prop_truthy _ "comment" T) as [x ->]. apply H.
Qed.

Lemma saving_needs_a_survey_witness :
  isLoaded (surveyState (fresh damaged)) = false
  /\ saveResponse "Q1" (VStr "yes") None now (fresh damaged) = (Ok false, fresh damaged).
Proof.
  split; [reflexivity|].
  exact (proj1 (saving_needs_a_survey "Q1" (VStr "yes") None "t" now [] []
                  (fresh damaged) eq_refl)).
Defined.

(** ** Steps *)

Lemma on_survey_steps (d : SurveyDefinition) (l : list Step) (st : SurveyState) :
  on_survey d l st -> definition_steps st = Ok (Some l).
Proof.
  intros (_ & Hd & Hs & _). unfold definition_steps. rewrite Hd, Hs. reflexivity.
Qed.

(** X5.  On a loaded survey [hasNextStep] and [hasPrevStep] tell exactly
    whether [nextStep] and [prevStep] will move. *)
Theorem hasNextStep_hasPrevStep_foretell
    (d : SurveyDefinition) (l : list Step) (w : World) :
  on_survey d l (surveyState w) ->
  hasNextStep (surveyState w) = fst (nextStep w)
  /\ Ok (hasPrevStep (surveyState w)) = fst (prevStep w).
Proof.
  intros Hon. pose proof (on_survey_steps d l _ Hon) as Hsteps.
  destruct Hon as (Hl & Hd & Hs & Hi).
  unfold hasNextStep, hasPrevStep, nextStep, prevStep, goToStep.
  rewrite Hsteps, Hl. cbn [negb bindE].
  split.
  - destruct (Z.ltb_spec (currentStepIndex (surveyState w) + 1) 0); [lia|].
    destruct (Z.geb_spec (currentStepIndex (surveyState w) + 1) (Z.of_nat (List.length l)));
      destruct (Z.ltb_spec (currentStepIndex (surveyState w)) (Z.of_nat (List.length l) - 1));
      cbn [fst]; try reflexivity; lia.
  - destruct (Z.ltb_spec (currentStepIndex (surveyState w) - 1) 0);
      destruct (Z.gtb_spec (currentStepIndex (surveyState w)) 0); cbn [fst];
      try reflexivity; try lia.
    destruct (Z.geb_spec (currentStepIndex (surveyState w) - 1) (Z.of_nat (List.length l)));
      cbn [fst]; [lia|reflexivity].
Qed.

Lemma hasNextStep_hasPrevStep_foretell_witness :
  on_survey branching
    [step "s1" [plain "Q1" false; follow_up]; step "s2" []; step "s3" []]
    (surveyState on_second)
  /\ hasNextStep (surveyState on_second) = fst (nextStep on_second)
  /\ Ok (hasPrevStep (surveyState on_second)) = fst (prevStep on_second).
Proof.
  assert (H : on_survey branching
                [step "s1" [plain "Q1" false; follow_up]; step "s2" []; step "s3" []]
                (surveyState on_second)).
  { repeat split; try reflexivity; cbn; lia. }
  split; [exact H|].
  exact (hasNextStep_hasPrevStep_foretell _ _ on_second H).
Defined.

(** X6.  When [nextStep] moves, [prevStep] moves back: the engine state is
    the one before the two calls, and the storage holds it. *)
Theorem nextStep_then_prevStep
    (d : SurveyDefinition) (l : list Step) (w : World) :
  on_survey d l (surveyState w) ->
  fst (nextStep w) = Ok true ->
  fst (prevStep (snd (nextStep w))) = Ok true
  /\ snd (prevStep (snd (nextStep w))) = saveProgress w.
Proof.
  intros (Hl & Hd & Hs & Hi) Hnext. unfold nextStep in *.
  destruct (goToStep_cases (currentStepIndex (surveyState w) + 1) w)
    as [Hsame | (d' & l' & _ & Hd' & Hs' & Hb & Hgo)].
  - exfalso. revert Hnext. unfold goToStep, definition_steps.
    rewrite Hl, Hd, Hs. cbn [negb].
    destruct (currentStepIndex (surveyState w) + 1 <? 0); [discriminate|].
    destruct (currentStepIndex (surveyState w) + 1 >=? Z.of_nat (List.length l)) eqn:E;
      [discriminate|].
    intros _. revert Hsame. unfold goToStep, definition_steps.
    rewrite Hl, Hd, Hs. cbn [negb].
    destruct (Z.ltb_spec (currentStepIndex (surveyState w) + 1) 0); [lia|].
    rewrite E. cbn [snd]. intros Hw.
    apply (f_equal (fun x => currentStepIndex (surveyState x))) in Hw.
    cbn in Hw. lia.
  - rewrite Hd in Hd'. injection Hd' as <-. rewrite Hs in Hs'. injection Hs' as <-.
    rewrite Hgo. cbn [snd]. unfold prevStep.
    match goal with |- context [goToStep ?i ?x] => set (i1 := i); set (w1 := x) in * end.
    assert (Hi1 : i1 = currentStepIndex (surveyState w)) by (subst i1 w1; cbn; lia).
    rewrite (goToStep_in_bounds w1 d l i1) by (subst w1; cbn; auto; lia).
    split; [reflexivity|]. cbn [snd]. rewrite Hi1. subst w1.
    destruct w as [[df ix rs ld] ls]. reflexivity.
Qed.

Lemma nextStep_then_prevStep_witness :
  (on_survey branching
     [step "s1" [plain "Q1" false; follow_up]; step "s2" []; step "s3" []]
     (surveyState on_second)
   /\ fst (nextStep on_second) = Ok true)
  /\ snd (prevStep (snd (nextStep on_second))) = saveProgress on_second.
Proof.
  assert (H : on_survey branching
                [step "s1" [plain "Q1" false; follow_up]; step "s2" []; step "s3" []]
                (surveyState on_second)).
  { repeat split; try reflexivity; cbn; lia. }
  split; [split; [exact H|reflexivity]|].
  exact (proj2 (nextStep_then_prevStep _ _ on_second H eq_refl)).
Defined.

(** ** The saved step *)

Lemma trimStart_white (ws s : string) :
  white ws -> trimStart (ws ++ s) = trimStart s.
Proof.
  unfold white. induction ws as [|c ws IH]; cbn [append trimStart]; [reflexivity|].
  intros H. rewrite (H c) by (left; reflexivity).
  apply IH. intros c' Hc'. apply H. right. exact Hc'.
Qed.

Lemma read_digits_stop (rest : string) (acc : Z) (count : nat) :
  no_leading_digit rest -> read_digits rest acc count = (acc, count, rest).
Proof.
  destruct rest as [|c r]; cbn [no_leading_digit read_digits]; [reflexivity|].
  intros ->. reflexivity.
Qed.

Lemma read_digits_uint_acc (d : Decimal.uint) (rest : string) (p : positive) (count : nat) :
  no_leading_digit rest ->
  read_digits (NilEmpty.string_of_uint d ++ rest) (Zpos p) count
  = (Zpos (Pos.of_uint_acc d p), (count + Decimal.nb_digits d)%nat, rest).
Proof.
  intros Hr. revert p count.
  induction d; intros p count;
    cbn [NilEmpty.string_of_uint append Pos.of_uint_acc Decimal.nb_digits];
    [rewrite (read_digits_stop rest _ _ Hr), Nat.add_0_r; reflexivity|..];
    cbn [read_digits];
    match goal with
    | |- context [digit_of ?c] =>
        let v := eval vm_compute in (digit_of c) in
        change (digit_of c) with v; cbv beta iota
    end;
    match goal with
    | |- read_digits _ ?a _ = (Zpos (Pos.of_uint_acc _ ?q), _, _) =>
        replace a with (Zpos q) by (rewrite ?Pos2Z.inj_add, ?Pos2Z.inj_mul; lia)
    end;
    rewrite IHd; f_equal; f_equal; lia.
Qed.

Lemma read_digits_uint (d : Decimal.uint) (rest : string) (count : nat) :
  no_leading_digit rest ->
  read_digits (NilEmpty.string_of_uint d ++ rest) 0 count
  = (Z.of_N (Pos.of_uint d), (count + Decimal.nb_digits d)%nat, rest).
Proof.
  intros Hr. revert count.
  induction d; intros count;
    cbn [NilEmpty.string_of_uint append Pos.of_uint Decimal.nb_digits];
    [rewrite (read_digits_stop rest _ _ Hr), Nat.add_0_r; reflexivity|..];
    cbn [read_digits];
    match goal with
    | |- context [digit_of ?c] =>
        let v := eval vm_compute in (digit_of c) in
        change (digit_of c) with v; cbv beta iota
    end;
    cbn [Z.mul Z.add Z.of_nat Z.of_N];
    [rewrite IHd; f_equal; f_equal; lia|..];
    match goal with
    | |- read_digits _ (Zpos ?q) _ = _ =>
        rewrite (read_digits_uint_acc d rest q _ Hr); f_equal; f_equal; lia
    end.
Qed.

Lemma string_of_uint_head (d : Decimal.uint) :
  d <> Decimal.Nil ->
  exists c s, NilEmpty.string_of_uint d = String c s
              /\ is_whitespace c = false
              /\ read_sign (String c (s ++ EmptyString)) = (false, String c (s ++ EmptyString))
              /\ forall rest, read_sign (String c (s ++ rest)) = (false, String c (s ++ rest)).
Proof.
  destruct d; [congruence|..]; intros _; cbn [NilEmpty.string_of_uint];
    eexists; eexists; (split; [reflexivity|]); repeat split.
Qed.

Lemma nb_digits_pos (d : Decimal.uint) :
  d <> Decimal.Nil -> (0 < Decimal.nb_digits d)%nat.
Proof. destruct d; [congruence|..]; cbn; lia. Qed.

(** The digits of [n] followed by something that is not a digit read back
    as [n]. *)
Lemma parseInt_digits (n : Z) (rest : string) :
  no_leading_digit rest -> parseInt (string_of_Z n ++ rest) = Some n.
Proof.
  intros Hr. unfold string_of_Z, parseInt.
  assert (Hpos : forall p,
             let s := NilEmpty.string_of_uint (Pos.to_uint p) in
             trimStart (s ++ rest) = s ++ rest
             /\ read_sign (s ++ rest) = (false, s ++ rest)
             /\ exists c, read_digits (s ++ rest) 0 0 = (Zpos p, S c, rest)).
  { intros p s. subst s.
    pose proof (Unsigned.to_uint_nonnil p) as Hnn.
    destruct (string_of_uint_head _ Hnn) as (c & s & Hs & Hw & _ & Hsign).
    rewrite (read_digits_uint _ rest 0 Hr), Unsigned.of_to.
    pose proof (nb_digits_pos _ Hnn) as Hnb.
    rewrite Hs. cbn [append trimStart]. rewrite Hw, Hsign.
    repeat split. exists (pred (Decimal.nb_digits (Pos.to_uint p))).
    cbn [Z.of_N]. f_equal. f_equal. lia. }
  destruct n as [|p|p]; cbn [Z.to_int NilZero.string_of_int].
  - change (NilZero.string_of_uint Decimal.zero) with "0". cbn [append].
    change (trimStart (String "0" rest)) with (String "0" rest).
    change (read_sign (String "0" rest)) with (false, String "0" rest).
    cbv beta iota.
    change (read_digits (String "0" rest) 0 0) with (read_digits rest 0 1).
    rewrite (read_digits_stop rest _ _ Hr). reflexivity.
  - destruct (Hpos p) as (Ht & Hs & c & Hd). cbv zeta in *.
    assert (E : NilZero.string_of_uint (Pos.to_uint p)
                = NilEmpty.string_of_uint (Pos.to_uint p)).
    { pose proof (Unsigned.to_uint_nonnil p).
      destruct (Pos.to_uint p); [congruence|reflexivity..]. }
    rewrite E, Ht, Hs, Hd. reflexivity.
  - destruct (Hpos p) as (Ht & Hs & c & Hd). cbv zeta in *.
    assert (E : NilZero.string_of_uint (Pos.to_uint p)
                = NilEmpty.string_of_uint (Pos.to_uint p)).
    { pose proof (Unsigned.to_uint_nonnil p).
      destruct (Pos.to_uint p); [congruence|reflexivity..]. }
    rewrite E. cbn [append trimStart]. 
    replace (is_whitespace "-") with false by reflexivity.
    cbn [read_sign]. rewrite Hd. reflexivity.
Qed.

(** X7.  [parseInt] reads back what [toString] wrote for a step index, also
    behind white space and before anything that does not start with a digit:
    a saved step such as " 2" or "2px" is read as 2. *)
Theorem parseInt_reads_saved_step (n : Z) (ws rest : string) :
  white ws ->
  no_leading_digit rest ->
  parseInt (ws ++ string_of_Z n ++ rest) = Some n.
Proof.
  intros Hw Hr.
  pose proof (parseInt_digits n rest Hr) as H.
  unfold parseInt in *. rewrite (trimStart_white ws _ Hw). exact H.
Qed.

Lemma parseInt_reads_saved_step_witness :
  (white " " /\ no_leading_digit "px")
  /\ parseInt (" " ++ string_of_Z 2 ++ "px") = Some 2.
Proof.
  assert (Hw : white " ").
  { intros c [<-|[]]. reflexivity. }
  assert (Hr : no_leading_digit "px") by reflexivity.
  split; [split; assumption|].
  exact (parseInt_reads_saved_step 2 " " "px" Hw Hr).
Defined.

Lemma append_empty (s : string) : s ++ EmptyString = s.
Proof. induction s as [|c s IH]; cbn [append]; [reflexivity|rewrite IH; reflexivity]. Qed.

Lemma parseInt_string_of_Z (n : Z) : parseInt (string_of_Z n) = Some n.
Proof.
  rewrite <- (append_empty (string_of_Z n)). apply parseInt_digits. exact I.
Qed.

(** X8.  Progress survives a reload: when a page that stands on a step of a
    loaded survey has saved its progress, a new page that loads the same
    definition stands on the same step and has the same responses, as JSON
    keeps them. *)
Theorem progress_survives_reload
    (d : SurveyDefinition) (l : list Step) (w : World) :
  on_survey d l (surveyState w) ->
  surveyState (run_all [Reload; Load (Ok d)] (saveProgress w))
  = {| definition := Some d;
       currentStepIndex := currentStepIndex (surveyState w);
       responses := json_image_props (responses (surveyState w));
       isLoaded := true;
       responses_proto := None |}.
Proof.
  intros (Hl & Hd & Hs & Hi).
  unfold run_all. cbn [fold_left run fresh saveProgress localStorage snd
                       loadSurveyDefinition surveyState initial_state
                       currentStepIndex responses].
  unfold restoreProgress.
  cbn [surveyState localStorage survey_current_step survey_responses definition].
  rewrite parseInt_string_of_Z, Hs.
  destruct (Z.geb_spec (currentStepIndex (surveyState w)) 0) as [_|]; [|lia].
  destruct (Z.ltb_spec (currentStepIndex (surveyState w)) (Z.of_nat (List.length l)))
    as [_|]; [|lia].
  reflexivity.
Qed.

Lemma progress_survives_reload_witness :
  on_survey branching
    [step "s1" [plain "Q1" false; follow_up]; step "s2" []; step "s3" []]
    (surveyState on_second)
  /\ surveyState (run_all [Reload; Load (Ok branching)] (saveProgress on_second))
     = {| definition := Some branching;
          currentStepIndex := 1;
          responses := [];
          isLoaded := true;
          responses_proto := None |}.
Proof.
  assert (H : on_survey branching
                [step "s1" [plain "Q1" false; follow_up]; step "s2" []; step "s3" []]
                (surveyState on_second)).
  { repeat split; try reflexivity; cbn; lia. }
  split; [exact H|].
  exact (progress_survives_reload _ _ on_second H).
Defined.

(** ** Steps by index and by id *)

Lemma find_unique_step (l : list Step) (i : nat) (s : Step) :
  unique_step_ids l ->
  nth_error l i = Some s ->
  find (fun x => String.eqb (step_id x) (step_id s)) l = Some s.
Proof.
  unfold unique_step_ids. revert i.
  induction l as [|x l IH]; intros i Hnd Hi; [destruct i; discriminate|].
  cbn [map] in Hnd. inversion Hnd as [|? ? Hnotin Hnd']; subst.
  destruct i as [|i]; cbn [nth_error find] in *.
  - injection Hi as ->. rewrite String.eqb_refl. reflexivity.
  - destruct (String.eqb (step_id x) (step_id s)) eqn:E.
    + exfalso. apply String.eqb_eq in E. apply Hnotin. rewrite E.
      apply in_map. eapply nth_error_In. exact Hi.
    + eapply IH; eassumption.
Qed.

(** X9.  When the step ids of the survey are all different, the check by
    step id agrees with the validation of the current step:
    [areAllRequiredQuestionsAnswered] on the id of the current step is
    [validateCurrentStep]. *)
Theorem step_check_is_validation
    (d : SurveyDefinition) (l : list Step) (st : SurveyState) (s : Step) :
  on_survey d l st ->
  unique_step_ids l ->
  getCurrentStep st = Ok (Some s) ->
  areAllRequiredQuestionsAnswered st (step_id s) = validateCurrentStep st.
Proof.
  intros Hon Hu Hcur. pose proof (on_survey_steps d l st Hon) as Hsteps.
  destruct Hon as (Hl & Hd & Hs & Hi).
  unfold validateCurrentStep. rewrite Hcur. cbn [bindE].
  unfold areAllRequiredQuestionsAnswered, getStepById.
  rewrite Hl, Hsteps. cbn [negb bindE].
  unfold getCurrentStep, getStepByIndex in Hcur. rewrite Hl, Hsteps in Hcur.
  cbn [negb bindE] in Hcur.
  destruct ((currentStepIndex st <? 0) || (currentStepIndex st >=? Z.of_nat (List.length l)));
    [discriminate|].
  injection Hcur as Hnth.
  rewrite (find_unique_step l _ s Hu Hnth). reflexivity.
Qed.

Lemma step_check_is_validation_witness :
  (on_survey branching
     [step "s1" [plain "Q1" false; follow_up]; step "s2" []; step "s3" []]
     (surveyState (loaded branching))
   /\ unique_step_ids [step "s1" [plain "Q1" false; follow_up]; step "s2" []; step "s3" []]
   /\ getCurrentStep (surveyState (loaded branching)) = Ok (Some first_step))
  /\ areAllRequiredQuestionsAnswered (surveyState (loaded branching)) "s1"
     = validateCurrentStep (surveyState (loaded branching)).
Proof.
  assert (H : on_survey branching
                [step "s1" [plain "Q1" false; follow_up]; step "s2" []; step "s3" []]
                (surveyState (loaded branching))).
  { repeat split; try reflexivity; cbn; lia. }
  assert (Hu : unique_step_ids
                 [step "s1" [plain "Q1" false; follow_up]; step "s2" []; step "s3" []]).
  { unfold unique_step_ids. cbn. repeat constructor; cbn; intuition discriminate. }
  split; [repeat split; try assumption; reflexivity|].
  exact (step_check_is_validation _ _ (surveyState (loaded branching)) first_step
           H Hu eq_refl).
Defined.

(** ** Rules *)

(** X10.  A rule on a question that has no response is not met, whatever
    its type, and evaluating it does not throw. *)
Theorem rule_on_unanswered_question (st : SurveyState) (r : ConditionRule) :
  getResponse st (questionId r) = VNull ->
  evaluateCondition st (Some r) = Ok false.
Proof.
  intros H. unfold evaluateCondition.
  destruct (String.eqb (questionId r) EmptyString || String.eqb (type r) EmptyString);
    [reflexivity|].
  rewrite H. cbn [truthy negb andb bindE].
  destruct (String.eqb (type r) ANSWERED); reflexivity.
Qed.

Lemma rule_on_unanswered_question_witness :
  getResponse (surveyState (loaded branching)) "Q1" = VNull
  /\ evaluateCondition (surveyState (loaded branching))
       (rule_on "Q1" LESS_THAN VUndefined (VNum 5) VUndefined) = Ok false.
Proof.
  split; [reflexivity|].
  exact (rule_on_unanswered_question (surveyState (loaded branching))
           {| questionId := "Q1"; type := LESS_THAN; value := VUndefined;
              threshold := VNum 5; optionId := VUndefined |} eq_refl).
Defined.

(** X11.  A rule without a question id or without a type, and a rule whose
    type is not one of the eight known types, is not met, whatever the
    response store holds; evaluating it does not throw. *)
Theorem unknown_rule_is_not_met (st : SurveyState) (r : ConditionRule) :
  questionId r = EmptyString
  \/ type r = EmptyString
  \/ ~ In (type r) [ANSWERED; EQUALS; NOT_EQUALS; CONTAINS; GREATER_THAN; LESS_THAN;
                    TOP_RANKED; OPTION_CHECKED] ->
  evaluateCondition st (Some r) = Ok false.
Proof.
  intros H. unfold evaluateCondition.
  destruct H as [-> | [-> | H]]; [reflexivity| |].
  { rewrite Bool.orb_true_r. reflexivity. }
  destruct (String.eqb (questionId r) EmptyString || String.eqb (type r) EmptyString);
    [reflexivity|].
  assert (Hne : forall t,
             In t [ANSWERED; EQUALS; NOT_EQUALS; CONTAINS; GREATER_THAN; LESS_THAN;
                   TOP_RANKED; OPTION_CHECKED] ->
             String.eqb (type r) t = false).
  { intros t Ht. apply String.eqb_neq. intros E. apply H. rewrite E. exact Ht. }
  rewrite !Hne by (cbn; tauto).
  destruct (getResponse_truthy_or_null st (questionId r)) as [T | E].
  - rewrite T. destruct (get_prop_truthy _ "value" T) as [x ->]. reflexivity.
  - rewrite E. reflexivity.
Qed.

Lemma unknown_rule_is_not_met_witness :
  ~ In "startsWith" [ANSWERED; EQUALS; NOT_EQUALS; CONTAINS; GREATER_THAN; LESS_THAN;
                     TOP_RANKED; OPTION_CHECKED]
  /\ evaluateCondition (surveyState said_yes) (rule "Q1" "startsWith" (VStr "y")) = Ok false.
Proof.
  assert (H : ~ In "startsWith" [ANSWERED; EQUALS; NOT_EQUALS; CONTAINS; GREATER_THAN;
                                 LESS_THAN; TOP_RANKED; OPTION_CHECKED]).
  { cbn. intuition discriminate. }
  split; [exact H|].
  exact (unknown_rule_is_not_met (surveyState said_yes)
           {| questionId := "Q1"; type := "startsWith"; value := VStr "y";
              threshold := VUndefined; optionId := VUndefined |}
           (or_intror (or_intror H))).
Defined.

(** X12.  On a response whose value is not [null], the rules [equals] and
    [notEquals] are opposite: [equals] is met exactly when the value is the
    rule's value (so never by the object of an "other" answer, nor by any
    array or object), and [notEquals] exactly when it is not. *)
Theorem equals_and_notEquals_are_opposite
    (st : SurveyState) (q : string) (v th o x : JsVal) :
  q <> EmptyString ->
  truthy (getResponse st q) = true ->
  get_prop (getResponse st q) "value" = Ok x ->
  x <> VNull ->
  evaluateCondition st (rule_on q EQUALS v th o) = Ok (strict_equals x v)
  /\ evaluateCondition st (rule_on q NOT_EQUALS v th o) = Ok (negb (strict_equals x v)).
Proof.
  intros Hq T Hx Hnull. apply String.eqb_neq in Hq.
  unfold rule_on, evaluateCondition. cbn [questionId type value]. rewrite Hq, T, Hx.
  split; [|reflexivity].
  cbn [orb negb andb bindE].
  change (String.eqb EQUALS ANSWERED) with false.
  change (String.eqb EQUALS EQUALS) with true. cbv beta iota.
  destruct x as [| |b|n|s|elems|props]; try reflexivity; [congruence|].
  change (String.eqb (typeof (VObj props)) "object") with true. cbv iota.
  destruct (get_prop_truthy (VObj props) "isOther" eq_refl) as [y ->].
  cbn [bindE]. destruct (truthy y); reflexivity.
Qed.

Lemma equals_and_notEquals_are_opposite_witness :
  ("Q1" <> EmptyString
   /\ truthy (getResponse (surveyState said_yes) "Q1") = true
   /\ get_prop (getResponse (surveyState said_yes) "Q1") "value" = Ok (VStr "yes")
   /\ VStr "yes" <> VNull)
  /\ evaluateCondition (surveyState said_yes)
       (rule_on "Q1" EQUALS (VStr "no") VUndefined VUndefined) = Ok false
  /\ evaluateCondition (surveyState said_yes)
       (rule_on "Q1" NOT_EQUALS (VStr "no") VUndefined VUndefined) = Ok true.
Proof.
  assert (Hq : "Q1" <> EmptyString) by discriminate.
  assert (Hn : VStr "yes" <> VNull) by discriminate.
  split; [repeat split; try assumption; reflexivity|].
  exact (equals_and_notEquals_are_opposite (surveyState said_yes) "Q1" (VStr "no")
           VUndefined VUndefined (VStr "yes") Hq eq_refl eq_refl Hn).
Defined.

Lemma Qlt_bool_inject_Z_lt (a b : Z) : Qlt_bool (inject_Z a) (inject_Z b) = (a <? b).
Proof.
  unfold Qlt_bool, Qle_bool, inject_Z. cbn.
  destruct (Z.ltb_spec a b); destruct (Z.leb_spec (b * 1) (a * 1)); cbn;
    try reflexivity; lia.
Qed.

(** X13.  On a response whose value is a number and with a threshold that
    is a number, [greaterThan] is met exactly when the value is greater than
    the threshold and [lessThan] exactly when it is smaller: a value equal to
    the threshold meets neither.  Without a threshold neither rule is met,
    whatever the value. *)
Theorem greaterThan_and_lessThan_are_strict
    (st : SurveyState) (q : string) (v o x : JsVal) :
  q <> EmptyString ->
  truthy (getResponse st q) = true ->
  get_prop (getResponse st q) "value" = Ok x ->
  (forall n t, x = VNum n ->
     evaluateCondition st (rule_on q GREATER_THAN v (VNum t) o) = Ok (t <? n)
     /\ evaluateCondition st (rule_on q LESS_THAN v (VNum t) o) = Ok (n <? t))
  /\ (forall th, th = VUndefined \/ th = VNull ->
        evaluateCondition st (rule_on q GREATER_THAN v th o) = Ok false
        /\ evaluateCondition st (rule_on q LESS_THAN v th o) = Ok false).
Proof.
  intros Hq T Hx. apply String.eqb_neq in Hq.
  unfold rule_on, evaluateCondition. cbn [questionId type threshold]. rewrite Hq, T, Hx.
  cbn [orb negb andb bindE].
  split.
  - intros n t ->. cbn [parseFloat to_number].
    rewrite !Qlt_bool_inject_Z_lt. split; reflexivity.
  - intros th [-> | ->]; split; reflexivity.
Qed.

Lemma greaterThan_and_lessThan_are_strict_witness :
  ("Q1" <> EmptyString
   /\ truthy (getResponse (surveyState (snd (saveResponse "Q1" (VNum 5) None now
                                               (loaded branching)))) "Q1") = true)
  /\ evaluateCondition (surveyState (snd (saveResponse "Q1" (VNum 5) None now
                                            (loaded branching))))
       (rule_on "Q1" GREATER_THAN VUndefined (VNum 5) VUndefined) = Ok false
  /\ evaluateCondition (surveyState (snd (saveResponse "Q1" (VNum 5) None now
                                            (loaded branching))))
       (rule_on "Q1" LESS_THAN VUndefined (VNum 5) VUndefined) = Ok false.
Proof.
  assert (Hq : "Q1" <> EmptyString) by discriminate.
  split; [split; [exact Hq|reflexivity]|].
  exact (proj1 (greaterThan_and_lessThan_are_strict
                  (surveyState (snd (saveResponse "Q1" (VNum 5) None now
                                       (loaded branching))))
                  "Q1" VUndefined VUndefined (VNum 5) Hq eq_refl eq_refl)
           5 5 eq_refl).
Defined.

(** What [optionChecked] computes for one option id that is a non-empty
    string, on a value that is there. *)
Lemma optionChecked_single (st : SurveyState) (q : string) (v th x : JsVal) (o : string) :
  q <> EmptyString ->
  o <> EmptyString ->
  truthy (getResponse st q) = true ->
  get_prop (getResponse st q) "value" = Ok x ->
  x <> VNull -> x <> VUndefined ->
  exists p,
    get_prop x o = Ok p
    /\ evaluateCondition st (rule_on q OPTION_CHECKED v th (VStr o))
       = Ok (strict_equals p (VBool true) || strict_equals x (VStr o)).
Proof.
  intros Hq Ho T Hx Hn Hu. apply String.eqb_neq in Hq. apply String.eqb_neq in Ho.
  unfold rule_on, evaluateCondition. cbn [questionId type optionId]. rewrite Hq, T, Hx.
  cbn [orb negb andb bindE truthy to_string]. rewrite Ho. cbn [negb].
  change (String.eqb OPTION_CHECKED ANSWERED) with false.
  change (String.eqb OPTION_CHECKED EQUALS) with false.
  change (String.eqb OPTION_CHECKED NOT_EQUALS) with false.
  change (String.eqb OPTION_CHECKED CONTAINS) with false.
  change (String.eqb OPTION_CHECKED GREATER_THAN) with false.
  change (String.eqb OPTION_CHECKED LESS_THAN) with false.
  change (String.eqb OPTION_CHECKED TOP_RANKED) with false.
  change (String.eqb OPTION_CHECKED OPTION_CHECKED) with true.
  cbv beta iota.
  destruct x as [| |b|n|s|elems|props]; try congruence.
  - exists VUndefined. split; [reflexivity|]. destruct b; reflexivity.
  - exists VUndefined. split; [reflexivity|].
    cbn [truthy typeof]. destruct (negb (n =? 0)); reflexivity.
  - destruct (String.eqb s EmptyString) eqn:Es.
    + apply String.eqb_eq in Es. subst s.
      assert (exists p, get_prop (VStr EmptyString) o = Ok p
                        /\ strict_equals p (VBool true) = false) as (p & Hp & Hpf).
      { cbn [get_prop]. destruct (String.eqb o "length"); [eexists; split; reflexivity|].
        destruct (index_of_key o) as [i|]; [|eexists; split; reflexivity].
        destruct i; eexists; split; reflexivity. }
      exists p. split; [exact Hp|]. rewrite Hpf.
      destruct o; [cbn in Ho; discriminate|reflexivity].
    + assert (exists p, get_prop (VStr s) o = Ok p
                        /\ strict_equals p (VBool true) = false) as (p & Hp & Hpf).
      { cbn [get_prop]. destruct (String.eqb o "length"); [eexists; split; reflexivity|].
        destruct (index_of_key o) as [i|]; [|eexists; split; reflexivity].
        destruct (String.get i s); eexists; split; reflexivity. }
      exists p. split; [exact Hp|]. rewrite Hpf.
      cbn [truthy typeof andb orb strict_equals loose_equals_string]. rewrite Es.
      reflexivity.
  - destruct (get_prop_truthy (VArr elems) o eq_refl) as [p Hp].
    exists p. split; [exact Hp|].
    cbn [truthy typeof andb]. change (String.eqb "object" "object") with true.
    cbv iota. rewrite Hp. cbn [bindE strict_equals]. rewrite Bool.orb_false_r.
    reflexivity.
  - destruct (get_prop_truthy (VObj props) o eq_refl) as [p Hp].
    exists p. split; [exact Hp|].
    cbn [truthy typeof andb]. change (String.eqb "object" "object") with true.
    cbv iota. rewrite Hp. cbn [bindE strict_equals]. rewrite Bool.orb_false_r.
    reflexivity.
Qed.

Lemma some_exc_existsb {A B : Type} (h : A -> B) (f : B -> Exc bool) (g : A -> bool)
    (l : list A) :
  (forall x, In x l -> f (h x) = Ok (g x)) -> some_exc f (map h l) = Ok (existsb g l).
Proof.
  induction l as [|x l IH]; intros H; cbn [some_exc existsb map]; [reflexivity|].
  rewrite (H x) by (left; reflexivity). cbn [bindE].
  destruct (g x); cbn [orb]; [reflexivity|].
  apply IH. intros y Hy. apply H. right. exact Hy.
Qed.

(** X14.  With an array of option ids, non-empty strings, [optionChecked] on
    a value that is not [null] or [undefined] is met exactly when the rule
    for one of the ids alone is met. *)
Theorem optionChecked_with_several_ids
    (st : SurveyState) (q : string) (v th x : JsVal) (ids : list string) :
  q <> EmptyString ->
  Forall (fun o => o <> EmptyString) ids ->
  truthy (getResponse st q) = true ->
  get_prop (getResponse st q) "value" = Ok x ->
  x <> VNull -> x <> VUndefined ->
  exists met : string -> bool,
    (forall o, In o ids ->
       evaluateCondition st (rule_on q OPTION_CHECKED v th (VStr o)) = Ok (met o))
    /\ evaluateCondition st (rule_on q OPTION_CHECKED v th (VArr (map VStr ids)))
       = Ok (existsb met ids).
Proof.
  intros Hq Hids T Hx Hn Hu.
  exists (fun o => match get_prop x o with
                   | Ok p => strict_equals p (VBool true) || strict_equals x (VStr o)
                   | Throw _ => false
                   end).
  rewrite Forall_forall in Hids.
  split.
  - intros o Ho.
    destruct (optionChecked_single st q v th x o Hq (Hids o Ho) T Hx Hn Hu)
      as (p & Hp & ->).
    rewrite Hp. reflexivity.
  - pose proof Hq as Hq'. apply String.eqb_neq in Hq'.
    unfold rule_on, evaluateCondition. cbn [questionId type optionId].
    rewrite Hq', T, Hx. cbn [orb negb andb bindE truthy].
    change (String.eqb OPTION_CHECKED ANSWERED) with false.
    change (String.eqb OPTION_CHECKED EQUALS) with false.
    change (String.eqb OPTION_CHECKED NOT_EQUALS) with false.
    change (String.eqb OPTION_CHECKED CONTAINS) with false.
    change (String.eqb OPTION_CHECKED GREATER_THAN) with false.
    change (String.eqb OPTION_CHECKED LESS_THAN) with false.
    change (String.eqb OPTION_CHECKED TOP_RANKED) with false.
    change (String.eqb OPTION_CHECKED OPTION_CHECKED) with true.
    cbv beta iota.
    apply some_exc_existsb.
    intros o Ho. cbn [to_string].
    assert (Tx : truthy x = true \/ exists p, get_prop x o = Ok p).
    { destruct x; try congruence; cbn [get_prop]; right; eauto.
      - destruct (String.eqb o "length"); eauto.
        destruct (index_of_key o) as [i|]; eauto. destruct (String.get i s); eauto.
      - destruct (String.eqb o "length"); eauto.
        destruct (index_of_key o); eauto.
      - destruct (lookup o props); eauto. }
    destruct Tx as [Tx | [p Hp]].
    + destruct (get_prop_truthy x o Tx) as [p ->]. reflexivity.
    + rewrite Hp. reflexivity.
Qed.

Lemma optionChecked_with_several_ids_witness :
  ("Q1" <> EmptyString
   /\ Forall (fun o => o <> EmptyString) ["no"; "yes"]
   /\ get_prop (getResponse (surveyState said_yes) "Q1") "value" = Ok (VStr "yes"))
  /\ exists met : string -> bool,
       (forall o, In o ["no"; "yes"] ->
          evaluateCondition (surveyState said_yes)
            (rule_on "Q1" OPTION_CHECKED VUndefined VUndefined (VStr o)) = Ok (met o))
       /\ evaluateCondition (surveyState said_yes)
            (rule_on "Q1" OPTION_CHECKED VUndefined VUndefined (VArr (map VStr ["no"; "yes"])))
          = Ok (existsb met ["no"; "yes"]).
Proof.
  assert (Hq : "Q1" <> EmptyString) by discriminate.
  assert (Hids : Forall (fun o => o <> EmptyString) ["no"; "yes"])
    by (repeat constructor; discriminate).
  split; [repeat split; try assumption; reflexivity|].
  exact (optionChecked_with_several_ids (surveyState said_yes) "Q1" VUndefined VUndefined
           (VStr "yes") ["no"; "yes"] Hq Hids eq_refl eq_refl
           ltac:(discriminate) ltac:(discriminate)).
Defined.

(** ** What the renderers save and what the rules read *)

Lemma saved_value (q : string) (v : JsVal) (c : option string) (now : string) (w : World) :
  isLoaded (surveyState w) = true ->
  truthy (getResponse (surveyState (snd (saveResponse q v c now w))) q) = true
  /\ get_prop (getResponse (surveyState (snd (saveResponse q v c now w))) q) "value" = Ok v.
Proof.
  intros Hl. rewrite (saveResponse_loaded q v c now w Hl).
  unfold saveProgress. cbn [snd surveyState].
  rewrite getResponse_put_same by apply saved_fields_no_proto.
  split; reflexivity.
Qed.

Lemma getResponse_after_other_save
    (q q' : string) (v : JsVal) (c : option string) (now : string) (w : World) :
  q <> "__proto__" ->
  q' <> q ->
  getResponse (surveyState (snd (saveResponse q v c now w))) q'
  = getResponse (surveyState w) q'.
Proof.
  intros Hp Hq. destruct (isLoaded (surveyState w)) eqn:Hl.
  - rewrite (saveResponse_loaded q v c now w Hl).
    unfold saveProgress. cbn [snd surveyState].
    apply getResponse_put_other; assumption.
  - unfold saveResponse. rewrite Hl. reflexivity.
Qed.

Lemma nth_map_VStr_not_true (i : nat) (l : list string) :
  strict_equals (nth i (map VStr l) VUndefined) (VBool true) = false.
Proof.
  revert i. induction l as [|x l IH]; intros [|i]; cbn [map nth]; try reflexivity.
  apply IH.
Qed.

Lemma existsb_VStr (o : string) (l : list string) :
  existsb (fun x => strict_equals x (VStr o)) (map VStr l) = true <-> In o l.
Proof.
  induction l as [|x l IH]; cbn [map existsb In]; [split; [discriminate|tauto]|].
  rewrite Bool.orb_true_iff, IH. cbn [strict_equals]. rewrite String.eqb_eq. tauto.
Qed.

(** X15.  After the check boxes of a question saved the checked values, the
    rule [contains] on that question is met exactly for the values that are
    checked, and the rule [optionChecked] is met for no option: it looks for
    a property of the saved array that is [true]. *)
Theorem checkbox_answer_meets_contains_only
    (q o : string) (checked : list string) (c : option string) (now : string)
    (w : World) (v th oid : JsVal) :
  q <> EmptyString ->
  o <> EmptyString ->
  isLoaded (surveyState w) = true ->
  (exists b,
     evaluateCondition (surveyState (snd (checkbox_change q checked c now w)))
       (rule_on q CONTAINS (VStr o) th oid) = Ok b
     /\ (b = true <-> In o checked))
  /\ evaluateCondition (surveyState (snd (checkbox_change q checked c now w)))
       (rule_on q OPTION_CHECKED v th (VStr o)) = Ok false.
Proof.
  intros Hq Ho Hl. unfold checkbox_change.
  destruct (saved_value q (VArr (map VStr checked)) c now w Hl) as [T Hx].
  split.
  - pose proof Hq as Hq'. apply String.eqb_neq in Hq'.
    unfold rule_on, evaluateCondition. cbn [questionId type value].
    rewrite Hq', T, Hx. cbn [orb negb andb bindE].
    eexists. split; [reflexivity|]. apply existsb_VStr.
  - destruct (optionChecked_single _ q v th _ o Hq Ho T Hx
                ltac:(discriminate) ltac:(discriminate)) as (p & Hp & ->).
    f_equal. cbn [strict_equals]. rewrite Bool.orb_false_r.
    cbn [get_prop] in Hp.
    destruct (String.eqb o "length"); [injection Hp as <-; reflexivity|].
    destruct (index_of_key o) as [i|]; injection Hp as <-;
      [apply nth_map_VStr_not_true|reflexivity].
Qed.

Lemma checkbox_answer_meets_contains_only_witness :
  ("Q1" <> EmptyString /\ "cost" <> EmptyString
   /\ isLoaded (surveyState (loaded branching)) = true)
  /\ evaluateCondition
       (surveyState (snd (checkbox_change "Q1" ["cost"; "skills"] None now (loaded branching))))
       (rule_on "Q1" OPTION_CHECKED VUndefined VUndefined (VStr "cost")) = Ok false.
Proof.
  assert (Hq : "Q1" <> EmptyString) by discriminate.
  assert (Ho : "cost" <> EmptyString) by discriminate.
  split; [repeat split; try assumption; reflexivity|].
  exact (proj2 (checkbox_answer_meets_contains_only "Q1" "cost" ["cost"; "skills"] None now
                  (loaded branching) VUndefined VUndefined VUndefined Hq Ho eq_refl)).
Defined.

(** X16.  After a radio button saved its value, the rules [equals] and
    [optionChecked] on that question are met exactly for that value, and the
    rule [answered] is met unless the value is blank. *)
Theorem radio_answer_meets_its_value
    (q val x : string) (c : option string) (now : string) (w : World) (v th oid : JsVal) :
  q <> EmptyString ->
  x <> EmptyString ->
  isLoaded (surveyState w) = true ->
  evaluateCondition (surveyState (snd (radio_change q val c now w)))
    (rule_on q EQUALS (VStr x) th oid) = Ok (String.eqb val x)
  /\ evaluateCondition (surveyState (snd (radio_change q val c now w)))
       (rule_on q OPTION_CHECKED v th (VStr x)) = Ok (String.eqb val x)
  /\ evaluateCondition (surveyState (snd (radio_change q val c now w)))
       (rule_on q ANSWERED v th oid) = Ok (negb (String.eqb (trim val) EmptyString)).
Proof.
  intros Hq Hx Hl. unfold radio_change.
  destruct (saved_value q (VStr val) c now w Hl) as [T Hv].
  pose proof Hq as Hq'. apply String.eqb_neq in Hq'.
  split; [|split].
  - unfold rule_on, evaluateCondition. cbn [questionId type value].
    rewrite Hq', T, Hv. reflexivity.
  - destruct (optionChecked_single _ q v th _ x Hq Hx T Hv
                ltac:(discriminate) ltac:(discriminate)) as (p & Hp & ->).
    f_equal. cbn [strict_equals].
    replace (strict_equals p (VBool true)) with false; [reflexivity|].
    cbn [get_prop] in Hp.
    destruct (String.eqb x "length"); [injection Hp as <-; reflexivity|].
    destruct (index_of_key x) as [i|]; [|injection Hp as <-; reflexivity].
    destruct (String.get i val); injection Hp as <-; reflexivity.
  - unfold rule_on, evaluateCondition. cbn [questionId type].
    rewrite Hq', T, Hv. reflexivity.
Qed.

Lemma radio_answer_meets_its_value_witness :
  ("Q1" <> EmptyString /\ "yes" <> EmptyString
   /\ isLoaded (surveyState (loaded branching)) = true)
  /\ shouldShowQuestion
       (surveyState (snd (radio_change "Q1" "yes" None now (loaded branching)))) follow_up
     = Ok true.
Proof.
  assert (Hq : "Q1" <> EmptyString) by discriminate.
  assert (Hx : "yes" <> EmptyString) by discriminate.
  split; [repeat split; try assumption; reflexivity|].
  pose proof (proj1 (radio_answer_meets_its_value "Q1" "yes" "yes" None now
                       (loaded branching) VUndefined VUndefined VUndefined Hq Hx eq_refl))
    as H.
  unfold shouldShowQuestion, follow_up, conditional, rule. cbn [conditions rules operator].
  unfold rule_on in H. cbn [map_exc]. rewrite H. reflexivity.
Defined.

(** ** The questions a condition depends on *)

Lemma evaluateCondition_ext (st1 st2 : SurveyState) (r : ConditionRule) :
  getResponse st1 (questionId r) = getResponse st2 (questionId r) ->
  evaluateCondition st1 (Some r) = evaluateCondition st2 (Some r).
Proof. intros H. unfold evaluateCondition. rewrite H. reflexivity. Qed.

Lemma map_exc_ext {A B : Type} (f g : A -> Exc B) (l : list A) :
  (forall x, In x l -> f x = g x) -> map_exc f l = map_exc g l.
Proof.
  induction l as [|x l IH]; intros H; cbn [map_exc]; [reflexivity|].
  rewrite (H x) by (left; reflexivity).
  rewrite IH by (intros y Hy; apply H; right; exact Hy). reflexivity.
Qed.

Lemma shouldShowQuestion_ext (st1 st2 : SurveyState) (question : Question) :
  (forall q, reads question q -> getResponse st1 q = getResponse st2 q) ->
  shouldShowQuestion st1 question = shouldShowQuestion st2 question.
Proof.
  intros H. unfold shouldShowQuestion.
  destruct (conditions question) as [group|] eqn:Hc; [|reflexivity].
  destruct (rules group) as [rs|] eqn:Hr; [|reflexivity].
  rewrite (map_exc_ext (evaluateCondition st1) (evaluateCondition st2) rs); [reflexivity|].
  intros [r|] Hin; [|reflexivity].
  apply evaluateCondition_ext. apply H. exists group, rs, r. auto.
Qed.

Lemma set_add_In (x y : string) (s : list string) :
  In x (set_add y s) <-> x = y \/ In x s.
Proof.
  unfold set_add. destruct (existsb (String.eqb y) s) eqn:E.
  - split; [auto|]. intros [->|H]; [|exact H].
    apply existsb_exists in E. destruct E as (z & Hz & Ez).
    apply String.eqb_eq in Ez. subst z. exact Hz.
  - rewrite in_app_iff. cbn [In]. intuition.
Qed.

Lemma add_rule_ids_spec (rs : list (option ConditionRule)) (s s' : list string) :
  add_rule_ids rs s = Ok s' ->
  (forall x, In x s -> In x s')
  /\ (forall r, In (Some r) rs -> In (questionId r) s').
Proof.
  revert s. induction rs as [|[r|] rs IH]; intros s H; cbn [add_rule_ids] in H.
  - injection H as <-. split; [auto|intros r []].
  - destruct (IH _ H) as [Hsub Hids]. split.
    + intros x Hx. apply Hsub. apply set_add_In. auto.
    + intros r' [E|Hin]; [|auto]. injection E as <-.
      apply Hsub. apply set_add_In. auto.
  - discriminate.
Qed.

Lemma add_question_ids_spec (qs : list Question) (s s' : list string) :
  add_question_ids qs s = Ok s' ->
  (forall x, In x s -> In x s')
  /\ (forall question q, In question qs -> reads question q -> In q s').
Proof.
  revert s. induction qs as [|question qs IH]; intros s H; cbn [add_question_ids] in H.
  - injection H as <-. split; [auto|intros ? ? []].
  - destruct (conditions question) as [[op [rs|]]|] eqn:Hc.
    + destruct (add_rule_ids rs s) as [s1|e] eqn:H1; cbn [bindE] in H; [|discriminate].
      destruct (add_rule_ids_spec _ _ _ H1) as [Hsub1 Hids1].
      destruct (IH _ H) as [Hsub Hids]. split; [auto|].
      intros question' q [<-|Hin] Hreads; [|eauto].
      destruct Hreads as (group & rs' & r & Hg & Hr & Hin & <-).
      rewrite Hc in Hg. injection Hg as <-. cbn [rules] in Hr. injection Hr as <-.
      auto.
    + destruct (IH _ H) as [Hsub Hids]. split; [auto|].
      intros question' q [<-|Hin] Hreads; [|eauto].
      destruct Hreads as (group & rs' & r & Hg & Hr & _).
      rewrite Hc in Hg. injection Hg as <-. discriminate.
    + destruct (IH _ H) as [Hsub Hids]. split; [auto|].
      intros question' q [<-|Hin] Hreads; [|eauto].
      destruct Hreads as (group & rs' & r & Hg & _). congruence.
Qed.

(** X17.  The set [dependentQuestionIds] of a step holds every question the
    conditions of the step read: saving a response to a question outside the
    set, whose id is not [__proto__], changes the visibility of no question
    of the step.  (A response saved under [__proto__] becomes the prototype
    of the response map and is read through every id the map does not hold,
    see [saving_under_proto_is_read_elsewhere].) *)
Theorem dependentQuestionIds_cover_the_conditions
    (s : Step) (qs : list Question) (ids : list string) (question : Question)
    (target : string) (v : JsVal) (c : option string) (now : string) (w : World) :
  questions s = Some qs ->
  dependentQuestionIds s = Ok ids ->
  In question qs ->
  ~ In target ids ->
  target <> "__proto__" ->
  shouldShowQuestion (surveyState (snd (saveResponse target v c now w))) question
  = shouldShowQuestion (surveyState w) question.
Proof.
  intros Hqs Hids Hin Hout Hp. unfold dependentQuestionIds in Hids. rewrite Hqs in Hids.
  destruct (add_question_ids_spec _ _ _ Hids) as [_ Hcover].
  apply shouldShowQuestion_ext. intros q Hreads.
  apply getResponse_after_other_save; [exact Hp|]. intros ->.
  apply Hout. eapply Hcover; eassumption.
Qed.

Lemma dependentQuestionIds_cover_the_conditions_witness :
  (questions first_step = Some [plain "Q1" false; follow_up]
   /\ dependentQuestionIds first_step = Ok ["Q1"]
   /\ In follow_up [plain "Q1" false; follow_up]
   /\ ~ In "Q2" ["Q1"]
   /\ "Q2" <> "__proto__")
  /\ shouldShowQuestion (surveyState (snd (saveResponse "Q2" (VStr "x") None now said_yes)))
       follow_up
     = shouldShowQuestion (surveyState said_yes) follow_up.
Proof.
  assert (Hin : In follow_up [plain "Q1" false; follow_up]) by (right; left; reflexivity).
  assert (Hout : ~ In "Q2" ["Q1"]) by (cbn; intuition discriminate).
  assert (Hp : "Q2" <> "__proto__") by discriminate.
  split; [repeat split; try assumption; reflexivity|].
  exact (dependentQuestionIds_cover_the_conditions first_step
           [plain "Q1" false; follow_up] ["Q1"] follow_up "Q2" (VStr "x") None now
           said_yes eq_refl eq_refl Hin Hout Hp).
Defined.

(** ** Navigation without validation *)

(** X18.  The pagination circles and the Previous button do not validate:
    on a loaded survey a click on the circle of any step moves there, and
    Previous moves back from any step but the first, whatever the required
    questions of the current step hold.  In particular a circle moves past a
    step on which the Next button does not move. *)
Theorem circles_and_previous_skip_validation
    (d : SurveyDefinition) (l : list Step) (w : World) (index : Z) :
  on_survey d l (surveyState w) ->
  0 <= index < Z.of_nat (List.length l) ->
  (fst (handleCircleNavigation index w) = Ok true
   /\ currentStepIndex (surveyState (snd (handleCircleNavigation index w))) = index
   /\ responses (surveyState (snd (handleCircleNavigation index w)))
      = responses (surveyState w))
  /\ (0 < currentStepIndex (surveyState w) ->
      fst (handlePrevStep w) = Ok true
      /\ currentStepIndex (surveyState (snd (handlePrevStep w)))
         = currentStepIndex (surveyState w) - 1).
Proof.
  intros (Hl & Hd & Hs & Hi) Hidx. unfold handleCircleNavigation, handlePrevStep, prevStep.
  split.
  - rewrite (goToStep_in_bounds w d l index Hl Hd Hs Hidx). repeat split.
  - intros Hpos.
    rewrite (goToStep_in_bounds w d l _ Hl Hd Hs) by lia. repeat split.
Qed.

Lemma circles_and_previous_skip_validation_witness :
  (on_survey branching
     [step "s1" [plain "Q1" false; follow_up]; step "s2" []; step "s3" []]
     (surveyState (loaded branching))
   /\ 0 <= 1 < Z.of_nat (List.length
                           [step "s1" [plain "Q1" false; follow_up]; step "s2" []; step "s3" []]))
  /\ fst (handleNextStep (loaded branching)) = Ok false
  /\ fst (handleCircleNavigation 1 (loaded branching)) = Ok true
  /\ currentStepIndex (surveyState (snd (handleCircleNavigation 1 (loaded branching)))) = 1.
Proof.
  assert (H : on_survey branching
                [step "s1" [plain "Q1" false; follow_up]; step "s2" []; step "s3" []]
                (surveyState (loaded branching))).
  { repeat split; try reflexivity; cbn; lia. }
  assert (Hi : 0 <= 1 < Z.of_nat (List.length
                 [step "s1" [plain "Q1" false; follow_up]; step "s2" []; step "s3" []]))
    by (cbn; lia).
  split; [split; assumption|]. split; [reflexivity|].
  destruct (circles_and_previous_skip_validation _ _ (loaded branching) 1 H Hi)
    as ((H1 & H2 & _) & _).
  split; assumption.
Defined.

(** ** The progress bar *)

(** X19.  A click on the progress bar of a loaded survey always moves the
    engine, to a step of the survey and without validating: the floor the
    page computed from the place of the click is the step when it is one,
    the first step when it is negative (a click left of the bar) and the last
    step when it is beyond the steps (a click at or past the right end). *)
Theorem progress_bar_click_aims_at_a_step
    (d : SurveyDefinition) (l : list Step) (w : World) (floored : Z) :
  on_survey d l (surveyState w) ->
  let n := Z.of_nat (List.length l) in
  let target := progressBarTarget floored (List.length l) in
  0 <= target < n
  /\ (0 <= floored < n -> target = floored)
  /\ (floored < 0 -> target = 0)
  /\ (n <= floored -> target = n - 1)
  /\ fst (handleProgressBarNavigation floored w) = Ok true
  /\ currentStepIndex (surveyState (snd (handleProgressBarNavigation floored w)))
     = target
  /\ responses (surveyState (snd (handleProgressBarNavigation floored w)))
     = responses (surveyState w).
Proof.
  intros Hon n target. pose proof (on_survey_steps d l _ Hon) as Hsteps.
  destruct Hon as (Hl & Hd & Hs & Hi).
  assert (Hn : 0 < n) by (subst n; lia).
  assert (Hb : 0 <= target < n).
  { subst target. unfold progressBarTarget. fold n. lia. }
  split; [exact Hb|]. split; [|split; [|split]].
  - intros Hin. subst target. unfold progressBarTarget. fold n. lia.
  - intros Hneg. subst target. unfold progressBarTarget. fold n. lia.
  - intros Hright. subst target. unfold progressBarTarget. fold n. lia.
  - unfold handleProgressBarNavigation, getAllSteps. rewrite Hl, Hsteps.
    fold n. destruct (Z.eqb_spec n 0); [lia|].
    fold target. rewrite (goToStep_in_bounds w d l target Hl Hd Hs Hb).
    repeat split; reflexivity.
Qed.

Lemma progress_bar_click_aims_at_a_step_witness :
  on_survey branching
    [step "s1" [plain "Q1" false; follow_up]; step "s2" []; step "s3" []]
    (surveyState (loaded branching))
  /\ progressBarTarget 7 3 = 2
  /\ currentStepIndex
       (surveyState (snd (handleProgressBarNavigation 7 (loaded branching)))) = 2.
Proof.
  assert (H : on_survey branching
                [step "s1" [plain "Q1" false; follow_up]; step "s2" []; step "s3" []]
                (surveyState (loaded branching))).
  { repeat split; try reflexivity; cbn; lia. }
  split; [exact H|]. split; [reflexivity|].
  destruct (progress_bar_click_aims_at_a_step _ _ (loaded branching) 7 H)
    as (_ & _ & _ & _ & _ & Hidx & _).
  exact Hidx.
Defined.

(** X20.  On a loaded survey the progress bar is set to a width above 0 and
    at most 100 percent, and to 100 exactly on the last step. *)
Theorem progress_bar_width_in_range
    (d : SurveyDefinition) (l : list Step) (st : SurveyState) :
  on_survey d l st ->
  exists width,
    updateProgressBar st = Ok (Some width)
    /\ (0 < width)%Q /\ (width <= 100)%Q
    /\ ((width == 100)%Q <-> currentStepIndex st = Z.of_nat (List.length l) - 1).
Proof.
  intros Hon. pose proof (on_survey_steps d l _ Hon) as Hsteps.
  destruct Hon as (Hl & Hd & Hs & Hi).
  unfold updateProgressBar, getAllSteps, getCurrentStepIndex. rewrite Hl, Hsteps.
  cbn [bindE]. destruct (Z.eqb_spec (Z.of_nat (List.length l)) 0) as [|Hnz]; [lia|].
  eexists. split; [reflexivity|].
  set (n := Z.of_nat (List.length l)) in *. set (i := currentStepIndex st) in *.
  assert (Hn : (0 < inject_Z n)%Q) by (change 0%Q with (inject_Z 0); rewrite <- Zlt_Qlt; lia).
  assert (E : (inject_Z (i + 1) / inject_Z n * 100 == inject_Z ((i + 1) * 100) / inject_Z n)%Q).
  { rewrite inject_Z_mult. field. intros E. rewrite E in Hn. discriminate Hn. }
  rewrite E. repeat split.
  - apply Qlt_shift_div_l; [exact Hn|]. rewrite Qmult_0_l.
    change 0%Q with (inject_Z 0). rewrite <- Zlt_Qlt. lia.
  - apply Qle_shift_div_r; [exact Hn|].
    change 100%Q with (inject_Z 100). rewrite <- inject_Z_mult, <- Zle_Qle. lia.
  - intros Heq.
    assert (H : (inject_Z ((i + 1) * 100) == 100 * inject_Z n)%Q).
    { rewrite <- Heq. field. intros E'. rewrite E' in Hn. discriminate Hn. }
    change 100%Q with (inject_Z 100) in H. rewrite <- inject_Z_mult in H.
    unfold Qeq in H. cbn [inject_Z Qnum Qden] in H. lia.
  - intros Hlast.
    replace ((i + 1) * 100) with (100 * n) by lia.
    rewrite inject_Z_mult. field. intros E'. rewrite E' in Hn. discriminate Hn.
Qed.

Lemma progress_bar_width_in_range_witness :
  on_survey branching
    [step "s1" [plain "Q1" false; follow_up]; step "s2" []; step "s3" []]
    (surveyState on_second)
  /\ exists width,
       updateProgressBar (surveyState on_second) = Ok (Some width)
       /\ (0 < width)%Q /\ (width <= 100)%Q.
Proof.
  assert (H : on_survey branching
                [step "s1" [plain "Q1" false; follow_up]; step "s2" []; step "s3" []]
                (surveyState on_second)).
  { repeat split; try reflexivity; cbn; lia. }
  split; [exact H|].
  destruct (progress_bar_width_in_range _ _ (surveyState on_second) H)
    as (width & H1 & H2 & H3 & _).
  exists width. auto.
Defined.

(** ** The navigation buttons *)

(** X21.  On a loaded survey exactly one of the Next and Submit buttons is
    displayed: Submit on the last step, Next on every other step; Previous is
    disabled exactly on the first step.  With no survey loaded Submit is
    displayed and Previous disabled. *)
Theorem navigation_buttons_follow_the_step
    (d : SurveyDefinition) (l : list Step) (st : SurveyState) :
  (on_survey d l st ->
   exists b,
     updateNavigationButtons st = Ok b
     /\ next_displayed b = negb (submit_displayed b)
     /\ (submit_displayed b = true <-> currentStepIndex st = Z.of_nat (List.length l) - 1)
     /\ (prev_disabled b = true <-> currentStepIndex st = 0))
  /\ (isLoaded st = false ->
      updateNavigationButtons st
      = Ok {| prev_disabled := true; next_displayed := false; submit_displayed := true |}).
Proof.
  split.
  - intros Hon. pose proof (on_survey_steps d l _ Hon) as Hsteps.
    destruct Hon as (Hl & Hd & Hs & Hi).
    unfold updateNavigationButtons, hasNextStep, hasPrevStep. rewrite Hl, Hsteps.
    cbn [negb bindE]. eexists. split; [reflexivity|].
    cbn [next_displayed submit_displayed prev_disabled].
    split; [rewrite Bool.negb_involutive; reflexivity|].
    split.
    + destruct (Z.ltb_spec (currentStepIndex st) (Z.of_nat (List.length l) - 1));
        cbn [negb]; split; intros; try discriminate; try reflexivity; lia.
    + destruct (Z.gtb_spec (currentStepIndex st) 0);
        cbn [negb]; split; intros; try discriminate; try reflexivity; lia.
  - intros Hl. unfold updateNavigationButtons, hasNextStep, hasPrevStep. rewrite Hl.
    reflexivity.
Qed.

Lemma navigation_buttons_follow_the_step_witness :
  on_survey branching
    [step "s1" [plain "Q1" false; follow_up]; step "s2" []; step "s3" []]
    (surveyState on_second)
  /\ exists b,
       updateNavigationButtons (surveyState on_second) = Ok b
       /\ next_displayed b = negb (submit_displayed b).
Proof.
  assert (H : on_survey branching
                [step "s1" [plain "Q1" false; follow_up]; step "s2" []; step "s3" []]
                (surveyState on_second)).
  { repeat split; try reflexivity; cbn; lia. }
  split; [exact H|].
  destruct (proj1 (navigation_buttons_follow_the_step _ _ (surveyState on_second)) H)
    as (b & H1 & H2 & _).
  exists b. auto.
Defined.

(** ** The background of a step *)

(** X22.  The opacity of a step background is always between 0 and 1 when
    the definition gives it as a string or not at all.  No opacity (or a
    falsy one) gives 0.5; the key words light, medium and dark in any letter
    case give 0.2, 0.5 and 0.8; any other string gives the number
    [parseFloat] reads at its start when that is between 0 and 1, and 0.5
    when it is not or when there is no number.  An opacity given as a number
    other than 0 (or as [true], an array or an object) makes the function
    throw. *)
Theorem background_opacity_in_range (opacity : JsVal) :
  (truthy opacity = false -> getBackgroundOpacity opacity = Ok (1 # 2)%Q)
  /\ (forall s, opacity = VStr s ->
        exists q, getBackgroundOpacity opacity = Ok q /\ (0 <= q)%Q /\ (q <= 1)%Q)
  /\ (forall s, opacity = VStr s -> toLowerCase s = "light" ->
        getBackgroundOpacity opacity = Ok (1 # 5)%Q)
  /\ (forall s, opacity = VStr s -> toLowerCase s = "medium" ->
        getBackgroundOpacity opacity = Ok (1 # 2)%Q)
  /\ (forall s, opacity = VStr s -> toLowerCase s = "dark" ->
        getBackgroundOpacity opacity = Ok (4 # 5)%Q)
  /\ (forall s, opacity = VStr s -> s <> EmptyString ->
        toLowerCase s <> "light" -> toLowerCase s <> "medium" ->
        toLowerCase s <> "dark" ->
        getBackgroundOpacity opacity
        = Ok match parseFloat_string s with
             | Some numValue =>
                 if Qle_bool 0 numValue && Qle_bool numValue 1 then numValue
                 else (1 # 2)%Q
             | None => (1 # 2)%Q
             end)
  /\ (truthy opacity = true -> (forall s, opacity <> VStr s) ->
      getBackgroundOpacity opacity = Throw TypeError).
Proof.
  unfold getBackgroundOpacity. repeat split.
  - intros ->. reflexivity.
  - intros s ->. destruct (truthy (VStr s)); cbn [negb];
      [|eexists; split; [reflexivity|split; discriminate]].
    destruct (String.eqb (toLowerCase s) "light");
      [eexists; split; [reflexivity|split; discriminate]|].
    destruct (String.eqb (toLowerCase s) "medium");
      [eexists; split; [reflexivity|split; discriminate]|].
    destruct (String.eqb (toLowerCase s) "dark");
      [eexists; split; [reflexivity|split; discriminate]|].
    destruct (parseFloat_string s) as [numValue|];
      [|eexists; split; [reflexivity|split; discriminate]].
    destruct (Qin01 numValue) eqn:E;
      [|eexists; split; [reflexivity|split; discriminate]].
    unfold Qin01 in E. apply Bool.andb_true_iff in E. destruct E as [E0 E1].
    apply Qle_bool_iff in E0. apply Qle_bool_iff in E1.
    eexists. split; [reflexivity|split; assumption].
  - intros s -> E. destruct s as [|c s]; [discriminate E|].
    cbn [truthy negb String.eqb]. rewrite E. reflexivity.
  - intros s -> E. destruct s as [|c s]; [discriminate E|].
    cbn [truthy negb String.eqb]. rewrite E. reflexivity.
  - intros s -> E. destruct s as [|c s]; [discriminate E|].
    cbn [truthy negb String.eqb]. rewrite E. reflexivity.
  - intros s -> Hne Hl Hm Hd. destruct s as [|c s]; [congruence|].
    cbn [truthy negb String.eqb].
    apply String.eqb_neq in Hl, Hm, Hd. rewrite Hl, Hm, Hd.
    unfold Qin01. destruct (parseFloat_string (String c s)) as [numValue|]; [|reflexivity].
    destruct (Qle_bool 0 numValue && Qle_bool numValue 1); reflexivity.
  - intros T Hns. rewrite T. cbn [negb].
    destruct opacity; try reflexivity; try discriminate.
    exfalso. eapply Hns. reflexivity.
Qed.

Lemma background_opacity_in_range_witness :
  (toLowerCase "Dark" = "dark" /\ toLowerCase "MEDIUM" = "medium")
  /\ getBackgroundOpacity (VStr "Dark") = Ok (4 # 5)%Q
  /\ getBackgroundOpacity (VStr "MEDIUM") = Ok (1 # 2)%Q
  /\ getBackgroundOpacity (VStr "0.3") = Ok (3 # 10)%Q
  /\ getBackgroundOpacity (VStr "1.5") = Ok (1 # 2)%Q
  /\ getBackgroundOpacity (VNum 1) = Throw TypeError.
Proof.
  split; [split; reflexivity|].
  destruct (background_opacity_in_range (VStr "Dark")) as (_ & _ & _ & _ & Hdark & _).
  split; [exact (Hdark "Dark" eq_refl eq_refl)|].
  destruct (background_opacity_in_range (VStr "MEDIUM")) as (_ & _ & _ & Hmedium & _).
  split; [exact (Hmedium "MEDIUM" eq_refl eq_refl)|].
  split; [reflexivity|]. split; [reflexivity|].
  destruct (background_opacity_in_range (VNum 1)) as (_ & _ & _ & _ & _ & _ & Hthrow).
  apply Hthrow; [reflexivity|discriminate].
Defined.

(** ** The multi-value slider and the comment field *)

Lemma slider_saveResponse_loaded (q : string) (positions : Props) (now : string) (w : World) :
  exists comment,
    get_prop (or_else (getResponse (surveyState w) q) (VObj [])) "comment" = Ok comment
    /\ slider_saveResponse q positions now w
       = saveResponse q
           (VObj [("value", VObj positions);
                  ("comment", or_else comment (VStr EmptyString))])
           None now w.
Proof.
  unfold slider_saveResponse.
  assert (T : truthy (or_else (getResponse (surveyState w) q) (VObj [])) = true).
  { unfold or_else. destruct (truthy (getResponse (surveyState w) q)) eqn:E; auto. }
  destruct (get_prop_truthy _ "comment" T) as [x Hx].
  exists x. rewrite Hx. split; reflexivity.
Qed.

(** The rule [topRanked] on a response whose value carries a non-empty
    position mapping under [value]. *)
Lemma topRanked_on_wrapped
    (st : SurveyState) (q : string) (v t oid : JsVal) (fields : Props) (wrapper : JsVal)
    (positions : list (string * Z)) :
  q <> EmptyString ->
  getResponse st q = VObj fields ->
  lookup "value" fields = Some wrapper ->
  get_prop wrapper "value" = Ok (VObj (position_props positions)) ->
  positions <> [] ->
  truthy oid = true ->
  exists b, evaluateCondition st (rule_on q TOP_RANKED v t oid) = Ok b
            /\ (b = true <-> exists k, oid = VStr k /\ first_greatest k positions).
Proof.
  intros Hq Hresp Hval Hinner Hne T. unfold rule_on.
  rewrite (topRanked_unfold st q v t oid Hq). rewrite Hresp.
  cbn [truthy negb get_prop]. rewrite Hval. cbn [bindE]. rewrite T. cbn [negb].
  rewrite Hinner. cbn [bindE truthy negb typeof entries].
  replace (String.eqb "object" "object") with true by reflexivity.
  replace (Z.of_nat (List.length (map fst (position_props positions))) >? 0) with true.
  2:{ destruct positions; [congruence|]. cbn [position_props map List.length]. lia. }
  cbn [andb].
  destruct (first_greatest_exists positions Hne) as (k & before & p & rest & Heq & Hb & Hr).
  pose proof (sorted_head_first_greatest before k p rest Hb Hr) as Hhead.
  rewrite <- Heq in Hhead.
  destruct (js_sort position_after (position_props positions)) as [|top tl];
    [discriminate|].
  cbn [hd_error] in Hhead. injection Hhead as ->. cbn [fst].
  eexists. split; [reflexivity|]. split.
  - intros ->%strict_equals_VStr_l. exists k. split; [reflexivity|].
    exists before, p, rest. auto.
  - intros (k' & -> & before' & p' & rest' & Heq' & Hb' & Hr').
    pose proof (sorted_head_first_greatest before' k' p' rest' Hb' Hr') as Hhead'.
    rewrite <- Heq', Heq in Hhead'.
    rewrite (sorted_head_first_greatest before k p rest Hb Hr) in Hhead'.
    injection Hhead' as -> ->. apply strict_equals_VStr_l. reflexivity.
Qed.

(** X23.  What the multi-value slider saves is what the rule [topRanked]
    reads: after the slider saved a non-empty set of positions for a
    question, the rule on that question is met exactly for the option that
    comes first among those in the greatest position. *)
Theorem slider_answer_meets_topRanked
    (q : string) (positions : list (string * Z)) (now : string) (w : World)
    (v t oid : JsVal) :
  q <> EmptyString ->
  isLoaded (surveyState w) = true ->
  positions <> [] ->
  truthy oid = true ->
  exists b,
    evaluateCondition
      (surveyState (snd (slider_saveResponse q (position_props positions) now w)))
      (rule_on q TOP_RANKED v t oid) = Ok b
    /\ (b = true <-> exists k, oid = VStr k /\ first_greatest k positions).
Proof.
  intros Hq Hl Hne T.
  destruct (slider_saveResponse_loaded q (position_props positions) now w)
    as (comment & _ & ->).
  rewrite (saveResponse_loaded q _ None now w Hl).
  eapply topRanked_on_wrapped; try eassumption.
  - unfold saveProgress. cbn [snd surveyState].
    apply getResponse_put_same. reflexivity.
  - reflexivity.
  - reflexivity.
Qed.

Lemma slider_answer_meets_topRanked_witness :
  ("Q1" <> EmptyString /\ isLoaded (surveyState (loaded branching)) = true
   /\ three_positions <> [])
  /\ exists b,
       evaluateCondition
         (surveyState (snd (slider_saveResponse "Q1" (position_props three_positions) now
                              (loaded branching))))
         (rule_on "Q1" TOP_RANKED VUndefined VUndefined (VStr "b")) = Ok b
       /\ (b = true <-> exists k, VStr "b" = VStr k /\ first_greatest k three_positions).
Proof.
  assert (Hq : "Q1" <> EmptyString) by discriminate.
  assert (Hne : three_positions <> []) by discriminate.
  split; [repeat split; try assumption; reflexivity|].
  exact (slider_answer_meets_topRanked "Q1" three_positions now (loaded branching)
           VUndefined VUndefined (VStr "b") Hq eq_refl Hne eq_refl).
Defined.

(** X24.  The slider keeps no comment: the response it saves has no comment
    of its own, the comment of the response before goes into the value, and
    after the slider saved twice that comment is the empty string. *)
Theorem slider_drops_the_comment
    (q : string) (p1 p2 : Props) (now1 now2 : string) (w : World) :
  isLoaded (surveyState w) = true ->
  (exists comment,
     get_prop (or_else (getResponse (surveyState w) q) (VObj [])) "comment" = Ok comment
     /\ getResponse (surveyState (snd (slider_saveResponse q p1 now1 w))) q
        = VObj [("value", VObj [("value", VObj p1);
                                ("comment", or_else comment (VStr EmptyString))]);
                ("timestamp", VStr now1)])
  /\ getResponse
       (surveyState (snd (slider_saveResponse q p2 now2
                            (snd (slider_saveResponse q p1 now1 w))))) q
     = VObj [("value", VObj [("value", VObj p2); ("comment", VStr EmptyString)]);
             ("timestamp", VStr now2)].
Proof.
  intros Hl.
  assert (Hfirst : exists comment,
             get_prop (or_else (getResponse (surveyState w) q) (VObj [])) "comment"
             = Ok comment
             /\ getResponse (surveyState (snd (slider_saveResponse q p1 now1 w))) q
                = VObj [("value", VObj [("value", VObj p1);
                                        ("comment", or_else comment (VStr EmptyString))]);
                        ("timestamp", VStr now1)]
             /\ isLoaded (surveyState (snd (slider_saveResponse q p1 now1 w))) = true).
  { destruct (slider_saveResponse_loaded q p1 now1 w) as (comment & Hc & ->).
    exists comment. split; [exact Hc|].
    rewrite (saveResponse_loaded q _ None now1 w Hl).
    unfold saveProgress. cbn [snd surveyState].
    rewrite responses_put_isLoaded.
    split; [apply getResponse_put_same; reflexivity|exact Hl]. }
  destruct Hfirst as (comment & Hc & H1 & Hl1).
  split; [exists comment; split; assumption|].
  destruct (slider_saveResponse_loaded q p2 now2 (snd (slider_saveResponse q p1 now1 w)))
    as (comment2 & Hc2 & ->).
  rewrite H1 in Hc2. cbn in Hc2. injection Hc2 as <-.
  rewrite (saveResponse_loaded q _ None now2 _ Hl1).
  unfold saveProgress at 1. cbn [snd surveyState].
  apply getResponse_put_same. reflexivity.
Qed.

Lemma slider_drops_the_comment_witness :
  isLoaded (surveyState commented_q1) = true
  /\ getResponse (surveyState commented_q1) "Q1"
     = VObj [("value", VNull); ("timestamp", VStr now); ("comment", VStr "a comment")]
  /\ getResponse
       (surveyState (snd (slider_saveResponse "Q1" [] now
                            (snd (slider_saveResponse "Q1" [] now commented_q1))))) "Q1"
     = VObj [("value", VObj [("value", VObj []); ("comment", VStr EmptyString)]);
             ("timestamp", VStr now)].
Proof.
  split; [reflexivity|]. split; [reflexivity|].
  exact (proj2 (slider_drops_the_comment "Q1" [] [] now now commented_q1 eq_refl)).
Defined.

(** X25.  When the comment field of a question loses the focus, the value of
    the response stays ([null] when there was no response) and the text of
    the field becomes the comment, or no comment at all when the text is
    blank. *)
Theorem comment_field_keeps_the_value
    (q text now : string) (w : World) :
  isLoaded (surveyState w) = true ->
  exists old,
    (if truthy (getResponse (surveyState w) q)
     then get_prop (getResponse (surveyState w) q) "value"
     else Ok VNull) = Ok old
    /\ fst (commentField_blur q text now w) = Ok true
    /\ getResponse (surveyState (snd (commentField_blur q text now w))) q
       = VObj (("value", old) :: ("timestamp", VStr now)
               :: if String.eqb (trim text) EmptyString then []
                  else [("comment", VStr text)]).
Proof.
  intros Hl. unfold commentField_blur.
  assert (Hold : exists old,
             (if truthy (getResponse (surveyState w) q)
              then get_prop (getResponse (surveyState w) q) "value"
              else Ok VNull) = Ok old).
  { destruct (truthy (getResponse (surveyState w) q)) eqn:T; [|eauto].
    apply get_prop_truthy. exact T. }
  destruct Hold as [old Hold]. exists old. rewrite Hold.
  split; [reflexivity|].
  rewrite (saveResponse_loaded q old (Some text) now w Hl).
  split; [reflexivity|].
  unfold saveProgress. cbn [snd surveyState].
  apply getResponse_put_same. apply (saved_fields_no_proto old (Some text) now).
Qed.

Lemma comment_field_keeps_the_value_witness :
  isLoaded (surveyState said_yes) = true
  /\ getResponse (surveyState (snd (commentField_blur "Q1" "sure" now said_yes))) "Q1"
     = VObj [("value", VStr "yes"); ("timestamp", VStr now); ("comment", VStr "sure")].
Proof.
  split; [reflexivity|].
  destruct (comment_field_keeps_the_value "Q1" "sure" now said_yes eq_refl)
    as (old & Hold & _ & H).
  cbn in Hold. injection Hold as <-. exact H.
Defined.

(** ** Restoring the responses *)

(** X26.  A load adopts the response map of the storage whatever the saved
    step is, as long as the definition has a steps array.  With a definition
    that has none, a saved step that parses to a number that is not negative
    makes the restore give up before it reads the responses: the map stays
    as it was, and the load does not throw. *)
Theorem load_restores_the_responses
    (w : World) (d : SurveyDefinition) (m : Props) :
  survey_responses (localStorage w) = Some (JsonOf m) ->
  fst (loadSurveyDefinition (Ok d) w) = Ok d
  /\ (steps d <> None ->
      responses (surveyState (snd (loadSurveyDefinition (Ok d) w))) = m)
  /\ (forall text i,
        steps d = None ->
        survey_current_step (localStorage w) = Some text ->
        parseInt text = Some i -> 0 <= i ->
        surveyState (snd (loadSurveyDefinition (Ok d) w))
        = {| definition := Some d;
             currentStepIndex := currentStepIndex (surveyState w);
             responses := responses (surveyState w);
             isLoaded := true;
             responses_proto := responses_proto (surveyState w) |}).
Proof.
  intros Hr. unfold loadSurveyDefinition. cbn [fst snd].
  split; [reflexivity|]. unfold restoreProgress.
  cbn [surveyState localStorage definition]. rewrite Hr. split.
  - intros Hs. destruct (steps d) as [l|] eqn:Hsteps; [|congruence].
    destruct (survey_current_step (localStorage w)) as [text|]; [|reflexivity].
    destruct (parseInt text) as [i|]; [|reflexivity].
    destruct (negb (i >=? 0)); [reflexivity|].
    destruct (i <? Z.of_nat (List.length l)); reflexivity.
  - intros text i Hs Ht Hp Hi. rewrite Ht, Hp, Hs.
    destruct (Z.geb_spec i 0); [|lia]. reflexivity.
Qed.

Lemma load_restores_the_responses_witness :
  survey_responses (localStorage (fresh blank_comment))
  = Some (JsonOf [("Q1", VObj [("value", VStr "yes"); ("timestamp", VStr now);
                               ("comment", VStr "  ")])])
  /\ responses (surveyState (snd (loadSurveyDefinition
                                    (Ok {| def_id := "bare"; title := VNull; steps := None |})
                                    (fresh blank_comment)))) = [].
Proof.
  split; [reflexivity|].
  destruct (load_restores_the_responses (fresh blank_comment)
              {| def_id := "bare"; title := VNull; steps := None |} _ eq_refl)
    as (_ & _ & H).
  rewrite (H "0" 0 eq_refl eq_refl eq_refl ltac:(lia)). reflexivity.
Defined.

(** ** The payload of a submission *)

(** X27.  The payload handed to the persistence collaborator always names a
    user and a survey.  The user name is the first of the claims
    [preferred_username], [email] and [name] that is truthy, and "unknown"
    when none of them is or when there are no claims.  The survey id is the
    id of the loaded definition, and "unknown" when the definition has
    none. *)
Theorem submission_names_user_and_survey
    (idTokenClaims : JsVal) (now : string)
    (saveUserData : SubmissionData -> Exc JsVal) (w : World) (data : SubmissionData) :
  snd (fst (submitSurvey idTokenClaims now saveUserData w)) = [data] ->
  (exists d,
     definition (surveyState w) = Some d
     /\ (def_id d = EmptyString -> surveyId data = "unknown")
     /\ (def_id d <> EmptyString -> surveyId data = def_id d))
  /\ (truthy idTokenClaims = false -> username data = VStr "unknown")
  /\ (truthy idTokenClaims = true ->
      exists a b c,
        get_prop idTokenClaims "preferred_username" = Ok a
        /\ get_prop idTokenClaims "email" = Ok b
        /\ get_prop idTokenClaims "name" = Ok c
        /\ (truthy a = true -> username data = a)
        /\ (truthy a = false -> truthy b = true -> username data = b)
        /\ (truthy a = false -> truthy b = false -> truthy c = true ->
            username data = c)
        /\ (truthy a = false -> truthy b = false -> truthy c = false ->
            username data = VStr "unknown"))
  /\ truthy (username data) = true
  /\ surveyId data <> EmptyString.
Proof.
  unfold submitSurvey.
  destruct (negb (isLoaded (surveyState w))
            || (Z.of_nat (List.length (map fst (responses (surveyState w)))) =? 0));
    [discriminate|].
  destruct (definition (surveyState w)) as [d|].
  2:{ destruct (truthy idTokenClaims);
        [destruct (get_prop idTokenClaims "preferred_username");
         [destruct (get_prop idTokenClaims "email");
          [destruct (get_prop idTokenClaims "name")|]|]|]; discriminate. }
  assert (Hid : forall i,
             i = (if String.eqb (def_id d) EmptyString then "unknown" else def_id d) ->
             (def_id d = EmptyString -> i = "unknown")
             /\ (def_id d <> EmptyString -> i = def_id d)
             /\ i <> EmptyString).
  { intros i ->. destruct (String.eqb_spec (def_id d) EmptyString) as [E|E].
    - repeat split; [congruence|discriminate].
    - repeat split; [congruence|exact E]. }
  destruct (truthy idTokenClaims) eqn:T.
  - destruct (or_claims_return idTokenClaims T) as (a & b & c & Ha & Hb & Hc).
    rewrite Ha, Hb, Hc. cbn [bindE fst snd]. intros [= <-].
    cbn [username surveyId].
    destruct (Hid _ eq_refl) as (H1 & H2 & H3).
    split; [exists d; auto|]. split; [discriminate|].
    split; [|split; [|exact H3]].
    + intros _. exists a, b, c. unfold or_else.
      repeat split; try reflexivity.
      * intros ->. reflexivity.
      * intros -> ->. reflexivity.
      * intros -> -> ->. reflexivity.
      * intros -> -> ->. reflexivity.
    + unfold or_else. destruct (truthy a) eqn:Ta; [exact Ta|].
      destruct (truthy b) eqn:Tb; [exact Tb|].
      destruct (truthy c) eqn:Tc; [exact Tc|reflexivity].
  - cbn [bindE fst snd]. intros [= <-].
    cbn [username surveyId].
    destruct (Hid _ eq_refl) as (H1 & H2 & H3).
    split; [exists d; auto|]. split; [reflexivity|].
    split; [discriminate|]. split; [reflexivity|exact H3].
Qed.

Lemma submission_names_user_and_survey_witness :
  snd (fst (submitSurvey (VObj [("email", VStr "a@b.c")]) now accept answered_q2))
  = [ {| surveyId := "branching"; surveyTitle := VStr "Sample"; completedAt := now;
         sub_responses := responses (surveyState answered_q2);
         username := VStr "a@b.c" |} ]
  /\ exists d, definition (surveyState answered_q2) = Some d /\ def_id d = "branching".
Proof.
  split; [reflexivity|].
  destruct (submission_names_user_and_survey (VObj [("email", VStr "a@b.c")]) now
              accept answered_q2 _ eq_refl) as ((d & Hd & _ & _) & _).
  exists d. split; [exact Hd|].
  injection Hd as <-. reflexivity.
Defined.

(** ** Sessions that do not throw *)



